(** * twig-api: the models resource and the twiglet clone workflow

    A shallow embedding of the models resource, [models.js] (the route handlers
    [postModelsHandler], [getModelsHandler], [getModelHandler],
    [putModelHandler], [deleteModelsHandler] and the helper [getModel]),
    of the PouchDB collection they talk to, and of the clone workflow of the
    twiglets resource.

    Conventions.
    - A promise is a computation over the world (the tenant database and the
      reply slot of the current request) that ends resolved or rejected;
      [then_] and [catch_] are the two promise combinators the handlers use.
    - The handlers run one at a time: a handler is a function from the world
      before the request to the world after it.
    - What JavaScript reads from its surroundings (the clock, the identifier
      and revision digests PouchDB draws at random) is passed in as [Env]. *)

From Stdlib Require PrimFloat.
From Stdlib Require Import Ascii.
From Stdlib Require OrdersEx.
From stdpp Require Import base strings list sorting gmap pretty.


(* ===================================================================== *)
(** ** Data model *)
(* ===================================================================== *)

(** [size: [Joi.string().allow('').allow(null), Joi.number()]] *)
Inductive EntitySize :=
  | SizeString (s : string)
  | SizeNull
  | SizeNumber (x : PrimFloat.float).

(** One value of the [entities] object, as [createModelRequest] shapes it. *)
Record Entity := {
  e_class : string;
  e_color : option string;
  e_image : string;
  e_size : option EntitySize;
  e_type : option string;
}.

(** [entities]: a JavaScript object used as a map from entity name to
    definition. *)
Abbreviation Entities := (gmap string Entity).

(** One changelog entry, [{ message, user, timestamp }]. *)
Record ChangelogEntry := {
  message : string;
  user : string;
  timestamp : string;
}.

(** The [data] member of a stored model document. *)
Record ModelData := {
  entities : Entities;
  changelog : list ChangelogEntry;
  name : string;
}.

(** A document as JavaScript sees it: [{ _id, _rev, data }]. *)
Record Doc := {
  _id : string;
  _rev : string;
  data : ModelData;
}.

(** The request payload.  [commitMessage], [entities] and [name] are
    required by [createModelRequest]; [_rev] is added by
    [updateModelRequest], so it is absent ([undefined]) on a create. *)
Record Payload := {
  commitMessage : string;
  p_entities : Entities;
  p_name : string;
  p_rev : option string;
}.

(** The parts of the hapi request the handlers read:
    [request.payload], [request.params.name],
    [request.auth.credentials.user.name] and [request.buildUrl]. *)
Record Request := {
  payload : Payload;
  params_name : string;
  credentials_user_name : string;
  buildUrl : string → string;
}.

(** What a handler reads from its surroundings during one request:
    [new Date().toISOString()], and the identifier and the revision digest
    PouchDB draws for a write. *)
Record Env := {
  now : string;
  uuid : string;
  rev_digest : string;
}.

(** A thrown value: an [Error] with the members the handlers set and read. *)
Record Error := {
  status : option nat;
  err_message : string;
  err_rev : option string;
}.

(** Values of the members of a response object. *)
Inductive Value :=
  | VString (s : string)
  | VEntities (es : Entities).

(** A response object, [{ key: value, ... }]. *)
Abbreviation Object := (gmap string Value).

(** What was handed to [reply]. *)
Inductive Reply :=
  | ReplyObject (body : Object) (code : nat)
  | ReplyArray (items : list Object) (code : nat)
  | ReplyBoom (statusCode : nat) (msg : string) (payload_rev : option string)
  | ReplyEmpty (code : nat).

(* ===================================================================== *)
(** ** The PouchDB collection *)
(* ===================================================================== *)

Module Pouch.

(** A revision: its generation and its digest; JavaScript sees the string
    [<generation>-<digest>]. *)
Record Revision := {
  pos : nat;
  digest : string;
}.

Definition rev_string (r : Revision) : string :=
  pretty (pos r) +:+ "-" +:+ digest r.

(** A live document in the collection. *)
Record Stored := {
  s_id : string;
  s_rev : Revision;
  s_data : ModelData;
}.

(** The collection: its live documents in the order [allDocs] lists them
    (ascending [_id]). *)
Abbreviation Store := (list Stored).

Definition render (d : Stored) : Doc :=
  {| _id := s_id d; _rev := rev_string (s_rev d); data := s_data d |}.

Fixpoint lookup_id (id : string) (s : Store) : option Stored :=
  match s with
  | [] => None
  | d :: s' => if decide (s_id d = id) then Some d else lookup_id id s'
  end.

(** The order of the listing: identifiers compare byte by byte. *)
Definition id_before (a b : string) : bool :=
  match OrdersEx.String_as_OT.compare a b with
  | Lt => true
  | _ => false
  end.

(** Insertion of a new document at its place in [_id] order. *)
Fixpoint insert_doc (d : Stored) (s : Store) : Store :=
  match s with
  | [] => [d]
  | x :: s' =>
      if id_before (s_id d) (s_id x) then d :: s else x :: insert_doc d s'
  end.

(** Replacement of the document stored under [s_id d]. *)
Definition replace_doc (d : Stored) (s : Store) : Store :=
  (λ x, if decide (s_id x = s_id d) then d else x) <$> s.

(** Removal of the document stored under [id]. *)
Definition remove_doc (id : string) (s : Store) : Store :=
  filter (λ x, s_id x ≠ id) s.

Definition conflict : Error :=
  {| status := Some 409; err_message := "Document update conflict";
     err_rev := None |}.

Definition missing : Error :=
  {| status := Some 404; err_message := "missing"; err_rev := None |}.

End Pouch.

(* ===================================================================== *)
(** ** Promises over the world *)
(* ===================================================================== *)

Record World := {
  db : Pouch.Store;
  replied : option Reply;
}.

Inductive Outcome (A : Type) :=
  | Resolved (a : A)
  | Rejected (e : Error).
Arguments Resolved {A} a.
Arguments Rejected {A} e.

Definition Async (A : Type) : Type := World → World * Outcome A.

Definition resolve {A} (a : A) : Async A := λ w, (w, Resolved a).

Definition throw {A} (e : Error) : Async A := λ w, (w, Rejected e).

(** [p.then(f)] *)
Definition then_ {A B} (p : Async A) (f : A → Async B) : Async B :=
  λ w, match p w with
       | (w', Resolved a) => f a w'
       | (w', Rejected e) => (w', Rejected e)
       end.

(** [p.catch(h)]: a resolved [p] passes through with its value. *)
Definition catch_ {A B} (p : Async A) (h : Error → Async B) : Async (A + B) :=
  λ w, match p w with
       | (w', Resolved a) => (w', Resolved (inl a))
       | (w', Rejected e) =>
           match h e w' with
           | (w'', Resolved b) => (w'', Resolved (inr b))
           | (w'', Rejected e') => (w'', Rejected e')
           end
       end.

(** [reply(r)] *)
Definition reply (r : Reply) : Async unit :=
  λ w, ({| db := db w; replied := Some r |}, Resolved tt).

(** [db.allDocs({ include_docs: true })], the [doc] of each row. *)
Definition allDocs : Async (list Doc) :=
  λ w, (w, Resolved (Pouch.render <$> db w)).

(** [db.post({ data })]: a new document under a drawn identifier, at
    generation 1; a taken identifier is a conflict. *)
Definition post (env : Env) (d : ModelData) : Async unit :=
  λ w, match Pouch.lookup_id (uuid env) (db w) with
       | Some _ => (w, Rejected Pouch.conflict)
       | None =>
           let new := {| Pouch.s_id := uuid env;
                         Pouch.s_rev := {| Pouch.pos := 1;
                                           Pouch.digest := rev_digest env |};
                         Pouch.s_data := d |} in
           ({| db := Pouch.insert_doc new (db w); replied := replied w |},
            Resolved tt)
       end.

(** [db.put(doc)]: accepted when [doc._rev] is the stored revision of
    [doc._id]; the document then gets the next generation. *)
Definition put (env : Env) (doc : Doc) : Async unit :=
  λ w, match Pouch.lookup_id (_id doc) (db w) with
       | None => (w, Rejected Pouch.conflict)
       | Some old =>
           if decide (Pouch.rev_string (Pouch.s_rev old) = _rev doc) then
             let new := {| Pouch.s_id := _id doc;
                           Pouch.s_rev :=
                             {| Pouch.pos := S (Pouch.pos (Pouch.s_rev old));
                                Pouch.digest := rev_digest env |};
                           Pouch.s_data := data doc |} in
             ({| db := Pouch.replace_doc new (db w); replied := replied w |},
              Resolved tt)
           else (w, Rejected Pouch.conflict)
       end.

(** [db.remove(id, rev)] *)
Definition remove (id rev : string) : Async unit :=
  λ w, match Pouch.lookup_id id (db w) with
       | None => (w, Rejected Pouch.missing)
       | Some old =>
           if decide (Pouch.rev_string (Pouch.s_rev old) = rev) then
             ({| db := Pouch.remove_doc id (db w); replied := replied w |},
              Resolved tt)
           else (w, Rejected Pouch.conflict)
       end.

(* ===================================================================== *)
(** ** models.js *)
(* ===================================================================== *)

(** [error.status || 500] *)
Definition status_or_500 (e : Error) : nat :=
  match status e with
  | Some (S n) => S n
  | _ => 500
  end.

(** [if (error._rev)]: the member is there and is not the empty string. *)
Definition truthy_rev (e : Error) : option string :=
  match err_rev e with
  | Some r => if decide (r = "") then None else Some r
  | None => None
  end.

Definition getModel (name' : string) : Async Doc :=
  then_ allDocs (λ rows,
    let modelArray := filter (λ row, name (data row) = name') rows in
    match modelArray with
    | doc :: _ => resolve doc
    | [] =>
        throw {| status := Some 404; err_message := "Not Found";
                 err_rev := None |}
    end).

Definition postModelsHandler (env : Env) (request : Request)
  : Async (Doc + unit + unit) :=
  catch_
    (catch_ (getModel (p_name (payload request))) (λ error,
       if decide (status error = Some 404) then
         then_
           (then_
              (post env
                 {| entities := p_entities (payload request);
                    changelog :=
                      [ {| message := commitMessage (payload request);
                           user := credentials_user_name request;
                           timestamp := now env |} ];
                    name := p_name (payload request) |})
              (λ _, getModel (p_name (payload request))))
           (λ newModel,
              let modelResponse : Object :=
                <[ "entities" := VEntities (entities (data newModel)) ]>
                (<[ "_rev" := VString (_rev newModel) ]>
                (<[ "name" := VString (name (data newModel)) ]>
                (<[ "url" := VString (buildUrl request
                       ("/models/" +:+ name (data newModel))) ]>
                (<[ "changelog_url" := VString (buildUrl request
                       ("/models/" +:+ name (data newModel) +:+ "/changelog")) ]>
                 ∅)))) in
              reply (ReplyObject modelResponse 201))
       else throw error))
    (λ e, reply (ReplyBoom (status_or_500 e) (err_message e) None)).

Definition getModelsHandler (request : Request) : Async (unit + unit) :=
  catch_
    (then_ allDocs (λ modelsRaw,
       let orgModels :=
         foldl (λ array row,
                  let object : Object :=
                    <[ "name" := VString (name (data row)) ]>
                    (<[ "url" := VString (buildUrl request
                           ("/models/" +:+ name (data row))) ]> ∅) in
                  array ++ [object])
               [] modelsRaw in
       reply (ReplyArray orgModels 200)))
    (λ error,
       reply (ReplyBoom (status_or_500 error) (err_message error) None)).

Definition getModelHandler (request : Request) : Async (unit + unit) :=
  catch_
    (then_ (getModel (params_name request)) (λ model,
       let modelResponse : Object :=
         <[ "entities" := VEntities (entities (data model)) ]>
         (<[ "name" := VString (name (data model)) ]>
         (<[ "_rev" := VString (_rev model) ]>
         (<[ "url" := VString (buildUrl request
                ("/models/" +:+ name (data model))) ]>
         (<[ "changelog_url" := VString (buildUrl request
                ("/models/" +:+ name (data model) +:+ "/changelog")) ]>
          ∅)))) in
       reply (ReplyObject modelResponse 200)))
    (λ error,
       reply (ReplyBoom (status_or_500 error) (err_message error) None)).

Definition putModelHandler (env : Env) (request : Request)
  : Async (unit + unit) :=
  catch_
    (then_
       (then_
          (then_ (getModel (params_name request)) (λ model,
             if decide (Some (_rev model) = p_rev (payload request)) then
               let model' :=
                 {| _id := _id model;
                    _rev := _rev model;
                    data :=
                      {| entities := p_entities (payload request);
                         name := p_name (payload request);
                         changelog :=
                           {| message := commitMessage (payload request);
                              user := credentials_user_name request;
                              timestamp := now env |}
                           :: changelog (data model) |} |} in
               put env model'
             else
               throw {| status := Some 409;
                        err_message := "Conflict, bad revision number";
                        err_rev := Some (_rev model) |}))
          (λ _, getModel (p_name (payload request))))
       (λ model,
          let modelResponse : Object :=
            <[ "name" := VString (name (data model)) ]>
            (<[ "_rev" := VString (_rev model) ]>
            (<[ "entities" := VEntities (entities (data model)) ]>
            (<[ "url" := VString (buildUrl request
                   ("/models/" +:+ name (data model))) ]>
            (<[ "changelog_url" := VString (buildUrl request
                   ("/models/" +:+ name (data model) +:+ "/changelog")) ]>
             ∅)))) in
          reply (ReplyObject modelResponse 200)))
    (λ error,
       reply (ReplyBoom (status_or_500 error) (err_message error)
                (truthy_rev error))).

Definition deleteModelsHandler (request : Request) : Async (unit + unit) :=
  catch_
    (then_ (getModel (params_name request)) (λ model,
       then_ (remove (_id model) (_rev model))
             (λ _, reply (ReplyEmpty 204))))
    (λ error,
       reply (ReplyBoom (status_or_500 error) (err_message error) None)).

(** One request against a collection: the handler runs from an empty reply
    slot; what is left is the collection and what was replied, if
    anything. *)
Definition handle {A} (handler : Async A) (s : Pouch.Store)
  : Pouch.Store * option Reply :=
  let w := fst (handler {| db := s; replied := None |}) in
  (db w, replied w).

(* ===================================================================== *)
(** ** Specification vocabulary *)
(* ===================================================================== *)

(** A string without the dash that ends the generation of a revision. *)
Fixpoint no_dash (s : string) : Prop :=
  match s with
  | EmptyString => True
  | String c s' => c ≠ "-"%char ∧ no_dash s'
  end.

(** The error [getModel] throws. *)
Definition NotFound : Error :=
  {| status := Some 404; err_message := "Not Found"; err_rev := None |}.

(** The documents of the collection that carry the name, in listing order,
    and the first of them. *)
Definition named (n : string) (s : Pouch.Store) : Pouch.Store :=
  filter (λ d, name (Pouch.s_data d) = n) s.

Definition first_named (n : string) (s : Pouch.Store) : option Pouch.Stored :=
  head (named n s).

(** The changelog entry a request records. *)
Definition entry_of (env : Env) (request : Request) : ChangelogEntry :=
  {| message := commitMessage (payload request);
     user := credentials_user_name request;
     timestamp := now env |}.

(** The document [postModelsHandler] hands to [db.post], as stored. *)
Definition created (env : Env) (request : Request) : Pouch.Stored :=
  {| Pouch.s_id := uuid env;
     Pouch.s_rev := {| Pouch.pos := 1; Pouch.digest := rev_digest env |};
     Pouch.s_data :=
       {| entities := p_entities (payload request);
          changelog := [entry_of env request];
          name := p_name (payload request) |} |}.

(** The document [putModelHandler] hands to [db.put] for the stored [d],
    as stored. *)
Definition updated (env : Env) (request : Request) (d : Pouch.Stored)
  : Pouch.Stored :=
  {| Pouch.s_id := Pouch.s_id d;
     Pouch.s_rev := {| Pouch.pos := S (Pouch.pos (Pouch.s_rev d));
                       Pouch.digest := rev_digest env |};
     Pouch.s_data :=
       {| entities := p_entities (payload request);
          changelog := entry_of env request :: changelog (Pouch.s_data d);
          name := p_name (payload request) |} |}.

(** The response object the three handlers build from a fetched document
    (they list its members in different orders). *)
Definition model_view (request : Request) (model : Doc) : Object :=
  <[ "entities" := VEntities (entities (data model)) ]>
  (<[ "_rev" := VString (_rev model) ]>
  (<[ "name" := VString (name (data model)) ]>
  (<[ "url" := VString (buildUrl request
         ("/models/" +:+ name (data model))) ]>
  (<[ "changelog_url" := VString (buildUrl request
         ("/models/" +:+ name (data model) +:+ "/changelog")) ]>
   ∅)))).

(** The members of a document view. *)
Definition view_keys : gset string :=
  {[ "entities"; "_rev"; "name"; "url"; "changelog_url" ]}.

(** The collection is keyed by [_id]: no two live documents share one. *)
Definition wf_store (s : Pouch.Store) : Prop := NoDup (Pouch.s_id <$> s).

(** The collection lists its documents by ascending [_id]. *)
Definition in_order (s : Pouch.Store) : Prop :=
  StronglySorted OrdersEx.String_as_OT.lt (Pouch.s_id <$> s).

(** What it is for an update of the stored [d] to answer with the document it
    wrote: the reply is a 200, the document stored under the [_id] of [d]
    has the entities and the name of the request and a revision other than
    that of [d], and the reply is the view of that document. *)
Definition update_returns_written
    (env : Env) (request : Request) (s : Pouch.Store) (d : Pouch.Stored)
  : Prop :=
  ∃ s' new body,
    handle (putModelHandler env request) s = (s', Some (ReplyObject body 200))
    ∧ Pouch.lookup_id (Pouch.s_id d) s' = Some new
    ∧ entities (Pouch.s_data new) = p_entities (payload request)
    ∧ name (Pouch.s_data new) = p_name (payload request)
    ∧ Pouch.rev_string (Pouch.s_rev new) ≠ Pouch.rev_string (Pouch.s_rev d)
    ∧ body = model_view request (Pouch.render new).

(** What it is for a delete to be final: once it has answered 204, a get and
    a second delete of the same name both answer 404 and leave the
    collection as it is. *)
Definition delete_is_terminal (request : Request) (s : Pouch.Store) : Prop :=
  ∀ s', handle (deleteModelsHandler request) s = (s', Some (ReplyEmpty 204)) →
    handle (getModelHandler request) s'
    = (s', Some (ReplyBoom 404 "Not Found" None))
    ∧ handle (deleteModelsHandler request) s'
      = (s', Some (ReplyBoom 404 "Not Found" None)).

(** A run of updates, each of which resolves the document stored under [id]
    and is answered with a 200; [None] when one of them is not. *)
Fixpoint run_updates (id : string) (us : list (Env * Request))
    (s : Pouch.Store) : option Pouch.Store :=
  match us with
  | [] => Some s
  | (env, request) :: us' =>
      match first_named (params_name request) s with
      | Some d =>
          if decide (Pouch.s_id d = id) then
            match handle (putModelHandler env request) s with
            | (s', Some (ReplyObject _ code)) =>
                if decide (code = 200) then run_updates id us' s' else None
            | _ => None
            end
          else None
      | None => None
      end
  end.

(* ===================================================================== *)
(** ** The twiglets resource: the clone workflow *)
(* ===================================================================== *)

Module Twiglets.

(** A node or a link of a graph, an object such as [{ a: 'node' }]. *)
Abbreviation GraphItem := (gmap string string).

(** Modelled from the spec: the twiglet document of the Twiglet Repository
    (the handlers of the twiglets resource are not among the sources, only
    their end-to-end tests are).  A twiglet has a name, a description, the
    name of its model, a changelog, and two mutable collections, its nodes
    and its links, each held in a cell of the repository. *)
Record Twiglet := {
  t_name : string;
  t_description : string;
  t_model : string;
  t_nodes : nat;
  t_links : nat;
  t_changelog : list ChangelogEntry;
}.

(** Modelled from the spec: the state of the Twiglet Repository, its
    documents and the cells that hold their collections. *)
Record Repository := {
  twiglets : list Twiglet;
  cells : gmap nat (list GraphItem);
}.

Inductive Failure := FailNotFound | FailConflict.

Definition read (r : Repository) (l : nat) : list GraphItem :=
  default [] (cells r !! l).

Definition nodes_of (r : Repository) (t : Twiglet) : list GraphItem :=
  read r (t_nodes t).

Definition links_of (r : Repository) (t : Twiglet) : list GraphItem :=
  read r (t_links t).

(** Modelled from the spec: [findByName] of the Twiglet Repository, the
    first live document with that name, or none (NotFound). *)
Definition findByName (n : string) (r : Repository) : option Twiglet :=
  head (filter (λ t, t_name t = n) (twiglets r)).

(** Modelled from the spec: [create] of the Twiglet Repository.  It fails
    with Conflict when a document with the name exists; otherwise it
    persists a new document with a single changelog entry, the nodes and
    the links of the payload going into cells of their own. *)
Definition create (name' description model : string)
    (nodes links : list GraphItem) (commitMessage' actor now' : string)
    (r : Repository) : Repository * (Failure + Twiglet) :=
  match findByName name' r with
  | Some _ => (r, inl FailConflict)
  | None =>
      let nodes_cell := fresh (dom (cells r)) in
      let cells1 := <[ nodes_cell := nodes ]> (cells r) in
      let links_cell := fresh (dom cells1) in
      let cells2 := <[ links_cell := links ]> cells1 in
      let doc :=
        {| t_name := name'; t_description := description; t_model := model;
           t_nodes := nodes_cell; t_links := links_cell;
           t_changelog :=
             [ {| message := commitMessage'; user := actor;
                  timestamp := now' |} ] |} in
      ({| twiglets := twiglets r ++ [doc]; cells := cells2 |}, inr doc)
  end.

(** Modelled from the spec: [cloneFrom] of the Clone Engine.  It resolves
    the source by name (NotFound if absent), builds the payload
    [{ nodes: source.nodes, links: source.links, model: source.model,
       name: newName, description: newDescription }]
    and delegates to [create] with the commit message. *)
Definition cloneFrom (sourceName newName newDescription : string)
    (commitMessage' actor now' : string) (r : Repository)
  : Repository * (Failure + Twiglet) :=
  match findByName sourceName r with
  | None => (r, inl FailNotFound)
  | Some source =>
      create newName newDescription (t_model source)
        (nodes_of r source) (links_of r source) commitMessage' actor now' r
  end.

(** An edit, in place, of the nodes or of the links of a stored twiglet. *)
Definition set_nodes (t : Twiglet) (nodes : list GraphItem) (r : Repository)
  : Repository :=
  {| twiglets := twiglets r; cells := <[ t_nodes t := nodes ]> (cells r) |}.

Definition set_links (t : Twiglet) (links : list GraphItem) (r : Repository)
  : Repository :=
  {| twiglets := twiglets r; cells := <[ t_links t := links ]> (cells r) |}.

(** The collections of a twiglet are held by the repository. *)
Definition allocated (t : Twiglet) (r : Repository) : Prop :=
  is_Some (cells r !! t_nodes t) ∧ is_Some (cells r !! t_links t).

(** The twiglet of the end-to-end tests, with the nodes [[{ a: 'node' }]]
    and the links [[{ a: 'link' }]] of the clone test. *)
Definition base : Twiglet :=
  {| t_name := "test-c44e6001-1abd-483f-a8ab-bf807da7e455";
     t_description := "foo bar baz";
     t_model := "testModel";
     t_nodes := 0; t_links := 1;
     t_changelog :=
       [ {| message := "fee fie fo fum"; user := "twigtest@corp.riglet.io";
            timestamp := "2016-11-02T10:00:00.000Z" |} ] |}.

Definition base_repository : Repository :=
  {| twiglets := [base];
     cells := <[ 0 := [ {[ "a" := "node" ]} ] ]>
              (<[ 1 := [ {[ "a" := "link" ]} ] ]> ∅) |}.

(** The clone of the end-to-end tests and the repository it leaves. *)
Definition the_clone : Twiglet :=
  {| t_name := "clone";
     t_description := "This was cloned";
     t_model := "testModel";
     t_nodes := 2; t_links := 3;
     t_changelog :=
       [ {| message := "cloned from BaseTwiglet";
            user := "twigtest@corp.riglet.io";
            timestamp := "2016-11-02T10:05:00.000Z" |} ] |}.

Definition cloned_repository : Repository :=
  {| twiglets := [base; the_clone];
     cells := <[ 3 := [ {[ "a" := "link" ]} ] ]>
              (<[ 2 := [ {[ "a" := "node" ]} ] ]>
              (cells base_repository)) |}.

End Twiglets.

(* ===================================================================== *)
(** ** Sample requests and collections *)
(* ===================================================================== *)

Module Sample.

Definition host (path : string) : string := "http://localhost:3000" +:+ path.

Definition person : Entity :=
  {| e_class := "user"; e_color := Some "#1f77b4"; e_image := "P";
     e_size := Some (SizeString "40"); e_type := Some "person" |}.

Definition ent1 : Entities := {[ "person" := person ]}.

Definition ent2 : Entities := ∅.

(** A create request ([POST /models]). *)
Definition create_req (nm : string) (es : Entities) (m : string) : Request :=
  {| payload := {| commitMessage := m; p_entities := es; p_name := nm;
                   p_rev := None |};
     params_name := ""; credentials_user_name := "ben"; buildUrl := host |}.

(** An update request ([PUT /models/{target}]). *)
Definition update_req (target rev nm : string) (es : Entities) (m : string)
  : Request :=
  {| payload := {| commitMessage := m; p_entities := es; p_name := nm;
                   p_rev := Some rev |};
     params_name := target; credentials_user_name := "ben";
     buildUrl := host |}.

(** A get or delete request ([GET] or [DELETE /models/{target}]). *)
Definition name_req (target : string) : Request :=
  {| payload := {| commitMessage := ""; p_entities := ∅; p_name := "";
                   p_rev := None |};
     params_name := target; credentials_user_name := "ben";
     buildUrl := host |}.

Definition env (t id digest' : string) : Env :=
  {| now := t; uuid := id; rev_digest := digest' |}.

(** Four requests in a row against an empty collection: create [y], create
    [x], create [z], rename [z] to [x]. *)
Definition env1 : Env := env "2016-11-02T10:00:00.000Z" "0a" "c1".
Definition env2 : Env := env "2016-11-02T10:01:00.000Z" "1b" "c2".
Definition env3 : Env := env "2016-11-02T10:02:00.000Z" "2c" "c3".
Definition env4 : Env := env "2016-11-02T10:03:00.000Z" "3d" "c4".

Definition req1 : Request := create_req "y" ent2 "y created".
Definition req2 : Request := create_req "x" ent1 "x created".
Definition req3 : Request := create_req "z" ent2 "z created".
Definition req4 : Request := update_req "z" "1-c3" "x" ent2 "z renamed to x".

Definition doc_y : Pouch.Stored := created env1 req1.
Definition doc_x : Pouch.Stored := created env2 req2.
Definition doc_z : Pouch.Stored := created env3 req3.
Definition doc_zx : Pouch.Stored := updated env4 req4 doc_z.

Definition one : Pouch.Store := [doc_y].
Definition two : Pouch.Store := [doc_y; doc_x].
Definition three : Pouch.Store := [doc_y; doc_x; doc_z].
Definition twins : Pouch.Store := [doc_y; doc_x; doc_zx].

(** Two updates in a row of the model created as [x]: the first renames it
    to [w], the second, addressed to [w], supplies the revision the first
    produced. *)
Definition env5 : Env := env "2016-11-02T10:04:00.000Z" "4e" "c5".
Definition env6 : Env := env "2016-11-02T10:05:00.000Z" "5f" "c6".

Definition req5 : Request := update_req "x" "1-c2" "w" ent2 "x renamed to w".
Definition req6 : Request := update_req "w" "2-c5" "w" ent1 "w refilled".

Definition updates : list (Env * Request) := [(env5, req5); (env6, req6)].

(** The collection [two] after the first of them. *)
Definition renamed_once : Pouch.Store := [doc_y; updated env5 req5 doc_x].

End Sample.

(* ===================================================================== *)
(** ** Vocabulary for the listing and for names *)
(* ===================================================================== *)

(** The element [GET /models] lists for a stored document,
    [{ name, url }]. *)
Definition summary (request : Request) (d : Pouch.Stored) : Object :=
  <[ "name" := VString (name (Pouch.s_data d)) ]>
  (<[ "url" := VString (buildUrl request
         ("/models/" +:+ name (Pouch.s_data d))) ]> ∅).

(** No two documents of the collection carry the same name. *)
Definition unique_names (s : Pouch.Store) : Prop :=
  NoDup ((λ d, name (Pouch.s_data d)) <$> s).

(* ===================================================================== *)
(** ** Revision strings *)
(* ===================================================================== *)

Section RevisionStrings.

Lemma pretty_N_char_no_dash (x : N) : pretty_N_char x ≠ "-"%char.
Proof. unfold pretty_N_char. by repeat case_match. Qed.

Lemma pretty_N_go_no_dash (x : N) (s : string) :
  no_dash s → no_dash (pretty_N_go x s).
Proof.
  revert s. induction (N.lt_wf_0 x) as [x _ IH]; intros s Hs.
  destruct (decide (x = 0)%N) as [->|Hx].
  - by rewrite pretty_N_go_0.
  - rewrite pretty_N_go_step by lia.
    apply IH; [apply N.div_lt; lia|].
    split; [apply pretty_N_char_no_dash|done].
Qed.

Lemma pretty_nat_no_dash (n : nat) : no_dash (pretty n).
Proof.
  unfold pretty, pretty_nat, pretty, pretty_N.
  case_decide; [by repeat split|].
  by apply pretty_N_go_no_dash.
Qed.

(** A string is cut in one way only at its first dash. *)
Lemma dash_split (a b t t' : string) :
  no_dash a → no_dash b →
  a +:+ "-" +:+ t = b +:+ "-" +:+ t' → a = b ∧ t = t'.
Proof.
  revert b. induction a as [|c a IH]; intros [|c' b] Ha Hb Heq;
    simpl in *; simplify_eq/=.
  - done.
  - by destruct Hb.
  - by destruct Ha.
  - destruct Ha as [_ Ha], Hb as [_ Hb].
    destruct (IH b Ha Hb) as [-> ->]; done.
Qed.

Lemma rev_string_inj (r1 r2 : Pouch.Revision) :
  Pouch.rev_string r1 = Pouch.rev_string r2 → r1 = r2.
Proof.
  destruct r1 as [g1 h1], r2 as [g2 h2]. unfold Pouch.rev_string. simpl.
  intros Heq.
  apply dash_split in Heq as [Hg ->]; auto using pretty_nat_no_dash.
  by apply (inj pretty) in Hg as ->.
Qed.

Lemma rev_string_nonempty (r : Pouch.Revision) : Pouch.rev_string r ≠ "".
Proof.
  unfold Pouch.rev_string.
  destruct (pretty (Pouch.pos r)); simpl; discriminate.
Qed.

(** A write moves a document to a revision string it did not have. *)
Lemma rev_string_next (r : Pouch.Revision) (h : string) :
  Pouch.rev_string {| Pouch.pos := S (Pouch.pos r); Pouch.digest := h |}
  ≠ Pouch.rev_string r.
Proof.
  intros Heq. apply rev_string_inj in Heq.
  destruct r as [g h']. simplify_eq/=. lia.
Qed.

End RevisionStrings.

(* ===================================================================== *)
(** ** Lookup by name *)
(* ===================================================================== *)

Section LookupByName.

Implicit Types (n : string) (s : Pouch.Store) (d : Pouch.Stored) (w : World).

Lemma first_named_cons n d s :
  first_named n (d :: s) =
  if decide (name (Pouch.s_data d) = n) then Some d else first_named n s.
Proof.
  unfold first_named, named. rewrite filter_cons. by case_decide.
Qed.

Lemma getModel_run n w :
  getModel n w =
  (w, match first_named n (db w) with
      | Some d => Resolved (Pouch.render d)
      | None => Rejected NotFound
      end).
Proof.
  unfold getModel, then_, allDocs.
  induction (db w) as [|d s IH]; [done|].
  rewrite fmap_cons, filter_cons, first_named_cons. simpl.
  destruct (decide (name (Pouch.s_data d) = n)); [done|].
  exact IH.
Qed.

Lemma first_named_Some n s d :
  first_named n s = Some d → d ∈ s ∧ name (Pouch.s_data d) = n.
Proof.
  intros Hd. apply head_Some_elem_of in Hd.
  by apply list_elem_of_filter in Hd as [? ?].
Qed.

Lemma first_named_None n s :
  first_named n s = None ↔ Forall (λ d, name (Pouch.s_data d) ≠ n) s.
Proof.
  unfold first_named. rewrite head_None.
  induction s as [|x s IH]; [by split; [constructor|]|].
  unfold named in *. rewrite filter_cons. case_decide.
  - split; [done|]. by inversion 1.
  - rewrite IH. split; [by constructor|by inversion 1].
Qed.

Lemma first_named_app n (pre post : Pouch.Store) d :
  Forall (λ x, name (Pouch.s_data x) ≠ n) pre →
  name (Pouch.s_data d) = n →
  first_named n (pre ++ d :: post) = Some d.
Proof.
  intros Hpre Hd. induction Hpre as [|x pre Hx _ IH]; simpl;
    rewrite first_named_cons.
  - by rewrite decide_True.
  - by rewrite decide_False.
Qed.

End LookupByName.

(* ===================================================================== *)
(** ** The collection under post, put and remove *)
(* ===================================================================== *)

Section Collection.

Implicit Types (i n : string) (s : Pouch.Store) (d new old : Pouch.Stored).

Lemma lookup_id_Some i s d :
  Pouch.lookup_id i s = Some d → d ∈ s ∧ Pouch.s_id d = i.
Proof.
  induction s as [|x s IH]; simpl; [done|].
  case_decide.
  - intros [= ->]. split; [left|done].
  - intros Hd. destruct (IH Hd). split; [by right|done].
Qed.

Lemma lookup_id_None i s :
  Pouch.lookup_id i s = None ↔ i ∉ Pouch.s_id <$> s.
Proof.
  induction s as [|x s IH]; simpl.
  - split; [intros _; apply not_elem_of_nil|done].
  - rewrite not_elem_of_cons. case_decide.
    + split; [done|]. intros [? _]. congruence.
    + rewrite IH. split; [by split|by intros [_ ?]].
Qed.

Lemma lookup_id_elem s d :
  wf_store s → d ∈ s → Pouch.lookup_id (Pouch.s_id d) s = Some d.
Proof.
  unfold wf_store. induction s as [|x s IH]; simpl.
  - intros _ Hd. by apply elem_of_nil in Hd.
  - rewrite NoDup_cons. intros [Hx Hs] Hd.
    apply elem_of_cons in Hd as [->|Hd].
    + by rewrite decide_True.
    + rewrite decide_False; [by apply IH|].
      intros Heq. apply Hx. rewrite Heq. by apply list_elem_of_fmap_2.
Qed.

Lemma first_named_lookup_id n s d :
  wf_store s → first_named n s = Some d →
  Pouch.lookup_id (Pouch.s_id d) s = Some d.
Proof.
  intros Hwf Hd. apply lookup_id_elem; [done|].
  by apply first_named_Some in Hd as [? _].
Qed.

(** *** put *)

Lemma replace_doc_ids new s :
  Pouch.s_id <$> Pouch.replace_doc new s = Pouch.s_id <$> s.
Proof.
  unfold Pouch.replace_doc. rewrite <-list_fmap_compose.
  apply list_fmap_ext. intros _ x _. simpl. by case_decide.
Qed.

Lemma replace_doc_wf new s : wf_store s → wf_store (Pouch.replace_doc new s).
Proof. unfold wf_store. by rewrite replace_doc_ids. Qed.

Lemma lookup_id_replace_eq new s :
  is_Some (Pouch.lookup_id (Pouch.s_id new) s) →
  Pouch.lookup_id (Pouch.s_id new) (Pouch.replace_doc new s) = Some new.
Proof.
  unfold Pouch.replace_doc.
  induction s as [|x s IH]; simpl; [by intros [? ?]|].
  case_decide.
  - intros _. by rewrite decide_True.
  - intros Hs. rewrite decide_False by done. by apply IH.
Qed.

Lemma lookup_id_replace_ne i new s :
  i ≠ Pouch.s_id new →
  Pouch.lookup_id i (Pouch.replace_doc new s) = Pouch.lookup_id i s.
Proof.
  intros Hi. unfold Pouch.replace_doc.
  induction s as [|x s IH]; simpl; [done|].
  destruct (decide (Pouch.s_id x = Pouch.s_id new)) as [Heq|Hne].
  - rewrite !decide_False by congruence. exact IH.
  - case_decide; [done|exact IH].
Qed.

(** When no other document carries the name of the replacement, a lookup
    by that name finds the replacement. *)
Lemma first_named_replace new s :
  is_Some (Pouch.lookup_id (Pouch.s_id new) s) →
  Forall (λ x, Pouch.s_id x ≠ Pouch.s_id new →
               name (Pouch.s_data x) ≠ name (Pouch.s_data new)) s →
  first_named (name (Pouch.s_data new)) (Pouch.replace_doc new s) = Some new.
Proof.
  unfold Pouch.replace_doc.
  induction s as [|x s IH]; simpl; [by intros [? ?]|].
  intros Hsome Hothers. apply Forall_cons in Hothers as [Hx Hothers].
  rewrite first_named_cons.
  destruct (decide (Pouch.s_id x = Pouch.s_id new)) as [Heq|Hne].
  - by rewrite decide_True.
  - rewrite decide_False by auto. auto.
Qed.

(** The replacement is among the documents that carry its name. *)
Lemma first_named_replace_is_Some new s :
  is_Some (Pouch.lookup_id (Pouch.s_id new) s) →
  is_Some (first_named (name (Pouch.s_data new)) (Pouch.replace_doc new s)).
Proof.
  unfold Pouch.replace_doc.
  induction s as [|x s IH]; simpl; [by intros [? ?]|].
  intros Hsome. rewrite first_named_cons.
  destruct (decide (Pouch.s_id x = Pouch.s_id new)) as [Heq|Hne].
  - by rewrite decide_True.
  - case_decide; [done|auto].
Qed.

(** *** post *)

Lemma insert_doc_perm d s : Pouch.insert_doc d s ≡ₚ d :: s.
Proof.
  induction s as [|x s IH]; simpl; [done|].
  case_match; [done|]. rewrite IH. apply Permutation_swap.
Qed.

Lemma insert_doc_wf d s :
  Pouch.lookup_id (Pouch.s_id d) s = None →
  wf_store s → wf_store (Pouch.insert_doc d s).
Proof.
  unfold wf_store. intros Hfresh Hwf.
  rewrite insert_doc_perm, fmap_cons, NoDup_cons.
  split; [by apply lookup_id_None|done].
Qed.

Lemma lookup_id_insert_eq d s :
  wf_store s → Pouch.lookup_id (Pouch.s_id d) s = None →
  Pouch.lookup_id (Pouch.s_id d) (Pouch.insert_doc d s) = Some d.
Proof.
  intros Hwf Hfresh. apply lookup_id_elem; [by apply insert_doc_wf|].
  rewrite insert_doc_perm. left.
Qed.

Lemma first_named_insert d s :
  first_named (name (Pouch.s_data d)) s = None →
  first_named (name (Pouch.s_data d)) (Pouch.insert_doc d s) = Some d.
Proof.
  unfold first_named, named. rewrite head_None. intros Hnone.
  assert (filter (λ x, name (Pouch.s_data x) = name (Pouch.s_data d))
            (Pouch.insert_doc d s) ≡ₚ [d]) as Hperm.
  { rewrite insert_doc_perm, filter_cons_True by done. by rewrite Hnone. }
  apply Permutation_singleton_r in Hperm. by rewrite Hperm.
Qed.

(** *** remove *)

Lemma remove_doc_wf i s : wf_store s → wf_store (Pouch.remove_doc i s).
Proof.
  unfold wf_store, Pouch.remove_doc. intros Hwf.
  eapply sublist_NoDup; [exact Hwf|].
  apply fmap_sublist, sublist_filter.
Qed.

Lemma named_remove_doc n i s :
  named n (Pouch.remove_doc i s) = filter (λ x, Pouch.s_id x ≠ i) (named n s).
Proof.
  unfold named, Pouch.remove_doc. rewrite !list_filter_filter.
  apply list_filter_iff. intros x. tauto.
Qed.

(** *** The order of the listing *)

Lemma in_order_wf s : in_order s → wf_store s.
Proof.
  unfold in_order, wf_store.
  induction (Pouch.s_id <$> s) as [|i ids IH]; [constructor|].
  rewrite StronglySorted_cons, NoDup_cons. intros [Hi Hids].
  split; [|by apply IH].
  intros Hin. rewrite Forall_forall in Hi.
  by apply (irreflexivity OrdersEx.String_as_OT.lt i), Hi.
Qed.

Lemma insert_doc_in_order d s :
  Pouch.lookup_id (Pouch.s_id d) s = None →
  in_order s → in_order (Pouch.insert_doc d s).
Proof.
  unfold in_order. induction s as [|x s IH]; simpl.
  - intros _ _. by repeat constructor.
  - case_decide as Hx; [done|]. intros Hfresh.
    rewrite StronglySorted_cons. intros [Hall Hsorted].
    unfold Pouch.id_before.
    destruct (OrdersEx.String_as_OT.compare_spec (Pouch.s_id d) (Pouch.s_id x))
      as [Heq|Hlt|Hgt]; simpl.
    + congruence.
    + rewrite !StronglySorted_cons. split_and!; [|done..].
      constructor; [done|].
      eapply Forall_impl; [exact Hall|]. intros i Hi. by etrans.
    + rewrite StronglySorted_cons. split; [|by apply IH].
      rewrite insert_doc_perm. simpl. by constructor.
Qed.

Lemma replace_doc_in_order new s :
  in_order s → in_order (Pouch.replace_doc new s).
Proof. unfold in_order. by rewrite replace_doc_ids. Qed.

Lemma remove_doc_in_order i s : in_order s → in_order (Pouch.remove_doc i s).
Proof.
  unfold in_order, Pouch.remove_doc. induction s as [|x s IH]; [done|].
  rewrite filter_cons, fmap_cons, StronglySorted_cons.
  intros [Hall Hsorted]. case_decide; [|by apply IH].
  rewrite fmap_cons, StronglySorted_cons. split; [|by apply IH].
  rewrite Forall_forall in Hall |- *. intros j Hj. apply Hall.
  apply list_elem_of_fmap in Hj as (y & -> & Hy).
  apply list_elem_of_filter in Hy as [_ Hy]. by apply list_elem_of_fmap_2.
Qed.

End Collection.

(* ===================================================================== *)
(** ** What each handler does to a collection *)
(* ===================================================================== *)

(** Unfolding of the promise combinators around the calls of a handler. *)
Ltac unfold_async :=
  unfold then_, catch_, reply, throw, resolve, put, post, remove; simpl.

Section Handlers.

Implicit Types (env : Env) (request : Request) (s : Pouch.Store).

Lemma getModelHandler_run request s :
  handle (getModelHandler request) s =
  (s, match first_named (params_name request) s with
      | Some d => Some (ReplyObject (model_view request (Pouch.render d)) 200)
      | None => Some (ReplyBoom 404 "Not Found" None)
      end).
Proof.
  unfold handle, getModelHandler. unfold_async.
  rewrite getModel_run. simpl.
  destruct (first_named (params_name request) s) as [d|]; reflexivity.
Qed.

(** [postModelsHandler]: nothing is written and nothing is replied when the
    name is taken; otherwise the document is posted and fetched again. *)
Lemma postModelsHandler_run env request s :
  handle (postModelsHandler env request) s =
  match first_named (p_name (payload request)) s with
  | Some _ => (s, None)
  | None =>
      match Pouch.lookup_id (uuid env) s with
      | Some _ => (s, Some (ReplyBoom 409 "Document update conflict" None))
      | None =>
          (Pouch.insert_doc (created env request) s,
           Some (ReplyObject
                   (model_view request (Pouch.render (created env request)))
                   201))
      end
  end.
Proof.
  unfold handle, postModelsHandler. unfold_async.
  rewrite getModel_run. simpl.
  destruct (first_named (p_name (payload request)) s) as [d|] eqn:Hd;
    simpl; [done|].
  destruct (Pouch.lookup_id (uuid env) s) as [old|] eqn:Hid; simpl; [done|].
  rewrite getModel_run. simpl.
  fold (entry_of env request). fold (created env request).
  pose proof (first_named_insert (created env request) s Hd) as Hnew.
  simpl in Hnew. by rewrite Hnew.
Qed.

(** [putModelHandler] on a well-formed collection. *)
Lemma putModelHandler_run env request s :
  wf_store s →
  handle (putModelHandler env request) s =
  match first_named (params_name request) s with
  | None => (s, Some (ReplyBoom 404 "Not Found" None))
  | Some d =>
      if decide (p_rev (payload request)
                 = Some (Pouch.rev_string (Pouch.s_rev d))) then
        let s' := Pouch.replace_doc (updated env request d) s in
        (s', match first_named (p_name (payload request)) s' with
             | Some found =>
                 Some (ReplyObject (model_view request (Pouch.render found))
                         200)
             | None => Some (ReplyBoom 404 "Not Found" None)
             end)
      else
        (s, Some (ReplyBoom 409 "Conflict, bad revision number"
                    (Some (Pouch.rev_string (Pouch.s_rev d)))))
  end.
Proof.
  intros Hwf. unfold handle, putModelHandler. unfold_async.
  rewrite getModel_run. simpl.
  destruct (first_named (params_name request) s) as [d|] eqn:Hd;
    simpl; [|done].
  destruct (decide (p_rev (payload request)
                    = Some (Pouch.rev_string (Pouch.s_rev d)))) as [Hrev|Hrev].
  - rewrite decide_True by done. simpl.
    rewrite (first_named_lookup_id _ _ _ Hwf Hd).
    rewrite decide_True by done. simpl.
    rewrite getModel_run. simpl. fold (entry_of env request).
    fold (updated env request d).
    destruct (first_named (p_name (payload request))
                (Pouch.replace_doc (updated env request d) s));
      reflexivity.
  - rewrite decide_False by done. simpl. unfold truthy_rev. simpl.
    by rewrite decide_False by apply rev_string_nonempty.
Qed.

(** [deleteModelsHandler] on a well-formed collection. *)
Lemma deleteModelsHandler_run request s :
  wf_store s →
  handle (deleteModelsHandler request) s =
  match first_named (params_name request) s with
  | None => (s, Some (ReplyBoom 404 "Not Found" None))
  | Some d => (Pouch.remove_doc (Pouch.s_id d) s, Some (ReplyEmpty 204))
  end.
Proof.
  intros Hwf. unfold handle, deleteModelsHandler. unfold_async.
  rewrite getModel_run. simpl.
  destruct (first_named (params_name request) s) as [d|] eqn:Hd;
    simpl; [|done].
  rewrite (first_named_lookup_id _ _ _ Hwf Hd).
  by rewrite decide_True.
Qed.

(** A name nobody carries: [deleteModelsHandler] needs no well-formedness
    to answer 404. *)
Lemma deleteModelsHandler_not_found request s :
  first_named (params_name request) s = None →
  handle (deleteModelsHandler request) s
  = (s, Some (ReplyBoom 404 "Not Found" None)).
Proof.
  intros Hd. unfold handle, deleteModelsHandler. unfold_async.
  rewrite getModel_run. simpl. by rewrite Hd.
Qed.

(** A 204 from [deleteModelsHandler]: the resolved document was removed. *)
Lemma deleteModelsHandler_204 request s s' :
  handle (deleteModelsHandler request) s = (s', Some (ReplyEmpty 204)) →
  ∃ d, first_named (params_name request) s = Some d
       ∧ s' = Pouch.remove_doc (Pouch.s_id d) s.
Proof.
  unfold handle, deleteModelsHandler. unfold_async.
  rewrite getModel_run. simpl.
  destruct (first_named (params_name request) s) as [d|] eqn:Hd;
    simpl; [|done].
  destruct (Pouch.lookup_id (Pouch.s_id d) s) as [old|]; simpl; [|done].
  case_decide; simpl; [|done].
  intros [= <-]. by exists d.
Qed.

(** A 200 from [putModelHandler]: the revision matched, the resolved
    document was written over, and the reply shows the first document that
    carries the new name. *)
Lemma putModelHandler_200 env request s s' body :
  handle (putModelHandler env request) s = (s', Some (ReplyObject body 200)) →
  ∃ d found,
    first_named (params_name request) s = Some d
    ∧ p_rev (payload request) = Some (Pouch.rev_string (Pouch.s_rev d))
    ∧ is_Some (Pouch.lookup_id (Pouch.s_id d) s)
    ∧ s' = Pouch.replace_doc (updated env request d) s
    ∧ first_named (p_name (payload request)) s' = Some found
    ∧ body = model_view request (Pouch.render found).
Proof.
  unfold handle, putModelHandler. unfold_async.
  rewrite getModel_run. simpl.
  destruct (first_named (params_name request) s) as [d|] eqn:Hd;
    simpl; [|done].
  case_decide as Hrev; simpl; [|done].
  destruct (Pouch.lookup_id (Pouch.s_id d) s) as [old|] eqn:Hold;
    simpl; [|done].
  case_decide as Hold_rev; simpl; [|done].
  apply rev_string_inj in Hold_rev. rewrite Hold_rev.
  fold (entry_of env request). fold (updated env request d).
  rewrite getModel_run. simpl.
  destruct (first_named (p_name (payload request))
              (Pouch.replace_doc (updated env request d) s))
    as [found|] eqn:Hfound; simpl; [|done].
  intros [= <- <-]. exists d, found.
  split_and!; done.
Qed.

(** A 201 from [postModelsHandler]: the name was free and the document was
    added. *)
Lemma postModelsHandler_201 env request s s' body :
  handle (postModelsHandler env request) s
  = (s', Some (ReplyObject body 201)) →
  first_named (p_name (payload request)) s = None
  ∧ Pouch.lookup_id (uuid env) s = None
  ∧ s' = Pouch.insert_doc (created env request) s
  ∧ body = model_view request (Pouch.render (created env request)).
Proof.
  rewrite postModelsHandler_run.
  destruct (first_named (p_name (payload request)) s); [done|].
  destruct (Pouch.lookup_id (uuid env) s); [done|].
  by intros [= <- <-].
Qed.

(** The handlers keep the collection keyed by [_id]. *)
Lemma postModelsHandler_wf env request s :
  wf_store s → wf_store (handle (postModelsHandler env request) s).1.
Proof.
  intros Hwf. rewrite postModelsHandler_run.
  destruct (first_named (p_name (payload request)) s); [done|].
  destruct (Pouch.lookup_id (uuid env) s) eqn:Hid; [done|].
  by apply insert_doc_wf.
Qed.

Lemma putModelHandler_wf env request s :
  wf_store s → wf_store (handle (putModelHandler env request) s).1.
Proof.
  intros Hwf. rewrite putModelHandler_run by done.
  destruct (first_named (params_name request) s); [|done].
  case_decide; [|done]. by apply replace_doc_wf.
Qed.

Lemma deleteModelsHandler_wf request s :
  wf_store s → wf_store (handle (deleteModelsHandler request) s).1.
Proof.
  intros Hwf. rewrite deleteModelsHandler_run by done.
  destruct (first_named (params_name request) s); [|done].
  by apply remove_doc_wf.
Qed.

(** The handlers keep the collection in [_id] order. *)
Lemma handlers_in_order env request s :
  in_order s →
  in_order (handle (postModelsHandler env request) s).1
  ∧ in_order (handle (getModelHandler request) s).1
  ∧ in_order (handle (putModelHandler env request) s).1
  ∧ in_order (handle (deleteModelsHandler request) s).1.
Proof.
  intros Hs. pose proof (in_order_wf s Hs) as Hwf. split_and!.
  - rewrite postModelsHandler_run.
    destruct (first_named (p_name (payload request)) s); [done|].
    destruct (Pouch.lookup_id (uuid env) s) eqn:Hid; [done|].
    by apply insert_doc_in_order.
  - by rewrite getModelHandler_run.
  - rewrite putModelHandler_run by done.
    destruct (first_named (params_name request) s); [|done].
    case_decide; [|done]. by apply replace_doc_in_order.
  - rewrite deleteModelsHandler_run by done.
    destruct (first_named (params_name request) s); [|done].
    by apply remove_doc_in_order.
Qed.

Lemma model_view_dom request model : dom (model_view request model) = view_keys.
Proof.
  unfold model_view, view_keys. rewrite !dom_insert_L, dom_empty_L.
  set_solver.
Qed.

(** Whatever object a handler replies with is the view of some document. *)
Lemma postModelsHandler_object env request s s' body code :
  handle (postModelsHandler env request) s
  = (s', Some (ReplyObject body code)) →
  ∃ model, body = model_view request model.
Proof.
  rewrite postModelsHandler_run.
  destruct (first_named (p_name (payload request)) s); [done|].
  destruct (Pouch.lookup_id (uuid env) s); [done|].
  intros [= _ <- _]. by eexists.
Qed.

Lemma getModelHandler_object request s s' body code :
  handle (getModelHandler request) s = (s', Some (ReplyObject body code)) →
  ∃ model, body = model_view request model.
Proof.
  rewrite getModelHandler_run.
  destruct (first_named (params_name request) s); [|done].
  intros [= _ <- _]. by eexists.
Qed.

Lemma putModelHandler_object env request s s' body code :
  handle (putModelHandler env request) s
  = (s', Some (ReplyObject body code)) →
  ∃ model, body = model_view request model.
Proof.
  unfold handle, putModelHandler. unfold_async.
  rewrite getModel_run. simpl.
  destruct (first_named (params_name request) s) as [d|]; simpl; [|done].
  case_decide; simpl; [|done].
  destruct (Pouch.lookup_id (Pouch.s_id d) s) as [old|]; simpl; [|done].
  case_decide; simpl; [|done].
  rewrite getModel_run. simpl.
  match goal with
  | |- context [first_named ?n ?s2] => destruct (first_named n s2) as [found|]
  end; simpl; [|done].
  intros [= _ <- _]. by eexists (Pouch.render found).
Qed.

End Handlers.

(* ===================================================================== *)
(** ** Runs of updates *)
(* ===================================================================== *)

Lemma run_updates_cons
    (id : string) (env : Env) (request : Request) (us : list (Env * Request))
    (s : Pouch.Store) :
  run_updates id ((env, request) :: us) s =
  match first_named (params_name request) s with
  | Some d =>
      if decide (Pouch.s_id d = id) then
        match handle (putModelHandler env request) s with
        | (s', Some (ReplyObject _ code)) =>
            if decide (code = 200) then run_updates id us s' else None
        | _ => None
        end
      else None
  | None => None
  end.
Proof. reflexivity. Qed.

(** The changelog of the document stored under [id] along a run of
    updates answered with a 200. *)
Lemma run_updates_changelog
    (id : string) (us : list (Env * Request)) (s s2 : Pouch.Store)
    (d : Pouch.Stored) :
  wf_store s →
  Pouch.lookup_id id s = Some d →
  run_updates id us s = Some s2 →
  ∃ d2, Pouch.lookup_id id s2 = Some d2
        ∧ changelog (Pouch.s_data d2)
          = reverse ((λ u, entry_of u.1 u.2) <$> us)
            ++ changelog (Pouch.s_data d).
Proof.
  revert s d. induction us as [|[env request] us IH]; intros s d Hwf Hid.
  - intros [= <-]. by exists d.
  - rewrite run_updates_cons.
    destruct (first_named (params_name request) s) as [d0|] eqn:Hd0; [|done].
    case_decide as Hsame; [|done].
    destruct (handle (putModelHandler env request) s) as [s' [r|]] eqn:Hrun;
      [|done].
    destruct r as [body code| | |]; try done.
    case_decide as Hcode; [|done]. subst code.
    intros Hrest.
    pose proof (first_named_lookup_id _ _ _ Hwf Hd0) as Hid0.
    rewrite Hsame, Hid in Hid0. injection Hid0 as ->.
    apply putModelHandler_200 in Hrun as (d1 & found & Hd1 & _ & Hsome & -> & _).
    rewrite Hd0 in Hd1. injection Hd1 as <-.
    destruct (IH (Pouch.replace_doc (updated env request d0) s)
                 (updated env request d0)) as (d2 & Hid2 & Hlog).
    + by apply replace_doc_wf.
    + rewrite <-Hsame. by apply (lookup_id_replace_eq (updated env request d0)).
    + done.
    + exists d2. split; [done|].
      rewrite Hlog. simpl. rewrite reverse_cons, <-app_assoc. done.
Qed.

(* ===================================================================== *)
(** ** The sample collections *)
(* ===================================================================== *)

(** The sample collections are what the sample requests leave behind, one
    after the other, from the empty collection. *)
Lemma sample_collections :
  handle (postModelsHandler Sample.env1 Sample.req1) []
  = (Sample.one,
     Some (ReplyObject
             (model_view Sample.req1 (Pouch.render Sample.doc_y)) 201))
  ∧ handle (postModelsHandler Sample.env2 Sample.req2) Sample.one
    = (Sample.two,
       Some (ReplyObject
               (model_view Sample.req2 (Pouch.render Sample.doc_x)) 201))
  ∧ handle (postModelsHandler Sample.env3 Sample.req3) Sample.two
    = (Sample.three,
       Some (ReplyObject
               (model_view Sample.req3 (Pouch.render Sample.doc_z)) 201))
  ∧ handle (putModelHandler Sample.env4 Sample.req4) Sample.three
    = (Sample.twins,
       Some (ReplyObject
               (model_view Sample.req4 (Pouch.render Sample.doc_x)) 200))
  ∧ handle (putModelHandler Sample.env5 Sample.req5) Sample.two
    = (Sample.renamed_once,
       Some (ReplyObject
               (model_view Sample.req5
                  (Pouch.render (updated Sample.env5 Sample.req5 Sample.doc_x)))
               200)).
Proof. split_and!; vm_compute; reflexivity. Qed.

Lemma sample_wf :
  wf_store Sample.one ∧ wf_store Sample.two ∧ wf_store Sample.three
  ∧ wf_store Sample.twins.
Proof. split_and!; compute_done. Qed.

(** The clone of the end-to-end tests: what [cloneFrom] returns for it. *)
Lemma sample_clone :
  Twiglets.cloneFrom "test-c44e6001-1abd-483f-a8ab-bf807da7e455" "clone"
    "This was cloned" "cloned from BaseTwiglet" "twigtest@corp.riglet.io"
    "2016-11-02T10:05:00.000Z" Twiglets.base_repository
  = (Twiglets.cloned_repository, inr Twiglets.the_clone)
  ∧ Twiglets.nodes_of Twiglets.cloned_repository Twiglets.the_clone
    = [ {[ "a" := "node" ]} ]
  ∧ Twiglets.links_of Twiglets.cloned_repository Twiglets.the_clone
    = [ {[ "a" := "link" ]} ].
Proof. split_and!; vm_compute; reflexivity. Qed.

(* ===================================================================== *)
(** ** The document behind a view *)
(* ===================================================================== *)

(** Whatever object a handler replies with is the view of the first
    document that, after the request, carries the name asked for: the name
    of the payload for a create and for an update, the name of the path
    for a get. *)
Lemma postModelsHandler_object_found
    (env : Env) (request : Request) (s s' : Pouch.Store)
    (body : Object) (code : nat) :
  handle (postModelsHandler env request) s
  = (s', Some (ReplyObject body code)) →
  ∃ d, first_named (p_name (payload request)) s' = Some d
       ∧ body = model_view request (Pouch.render d).
Proof.
  rewrite postModelsHandler_run.
  destruct (first_named (p_name (payload request)) s) eqn:Hfree; [done|].
  destruct (Pouch.lookup_id (uuid env) s); [done|].
  intros [= <- <- _]. exists (created env request). split; [|done].
  by apply (first_named_insert (created env request)).
Qed.

Lemma getModelHandler_object_found
    (request : Request) (s s' : Pouch.Store) (body : Object) (code : nat) :
  handle (getModelHandler request) s = (s', Some (ReplyObject body code)) →
  ∃ d, first_named (params_name request) s' = Some d
       ∧ body = model_view request (Pouch.render d).
Proof.
  rewrite getModelHandler_run.
  destruct (first_named (params_name request) s) as [d|] eqn:Hd; [|done].
  intros [= <- <- _]. by exists d.
Qed.

Lemma putModelHandler_object_found
    (env : Env) (request : Request) (s s' : Pouch.Store)
    (body : Object) (code : nat) :
  handle (putModelHandler env request) s
  = (s', Some (ReplyObject body code)) →
  ∃ d, first_named (p_name (payload request)) s' = Some d
       ∧ body = model_view request (Pouch.render d).
Proof.
  unfold handle, putModelHandler. unfold_async.
  rewrite getModel_run. simpl.
  destruct (first_named (params_name request) s) as [d0|]; simpl; [|done].
  case_decide; simpl; [|done].
  destruct (Pouch.lookup_id (Pouch.s_id d0) s) as [old|]; simpl; [|done].
  case_decide; simpl; [|done].
  rewrite getModel_run. simpl.
  match goal with
  | |- context [first_named ?n ?s2] =>
      destruct (first_named n s2) as [found|] eqn:Hfound
  end; simpl; [|done].
  intros [= <- <- _]. by exists found.
Qed.

(* ===================================================================== *)
(** ** Properties of the handlers *)
(* ===================================================================== *)

(** C1 (the code departs from it): with a model named [x] in the
    collection, a create request for the name [x] writes nothing, and
    [reply] is not called at all: there is no 409, and no other answer.
    [getModel] resolves, so neither [.catch] of [postModelsHandler] runs. *)
Theorem postModelsHandler_taken_name_unanswered :
  first_named "x" Sample.two = Some Sample.doc_x
  ∧ handle (postModelsHandler Sample.env3
              (Sample.create_req "x" Sample.ent2 "x again"))
           Sample.two
    = (Sample.two, None).
Proof. split; vm_compute; reflexivity. Qed.

(** C2: an update whose [_rev] is not the revision of the document that
    [PUT /models/{name}] resolves gets the 409 reply [Conflict, bad revision
    number], the reply carries the revision the document has, and the
    collection (every document's entities, name, changelog and revision) is
    left as it was. *)
Theorem putModelHandler_stale_revision
    (env : Env) (request : Request) (s : Pouch.Store) (d : Pouch.Stored) :
  first_named (params_name request) s = Some d →
  p_rev (payload request) ≠ Some (Pouch.rev_string (Pouch.s_rev d)) →
  handle (putModelHandler env request) s
  = (s, Some (ReplyBoom 409 "Conflict, bad revision number"
                (Some (Pouch.rev_string (Pouch.s_rev d))))).
Proof.
  intros Hd Hrev. unfold handle, putModelHandler. unfold_async.
  rewrite getModel_run. simpl. rewrite Hd. simpl.
  rewrite decide_False by congruence. simpl.
  unfold truthy_rev. simpl.
  by rewrite decide_False by apply rev_string_nonempty.
Qed.

(** The model [x] of the sample was renamed to [w] and is at [2-c5]; a
    second update that still supplies [1-c2] is turned down. *)
Lemma putModelHandler_stale_revision_witness :
  handle (putModelHandler Sample.env6
            (Sample.update_req "w" "1-c2" "w" Sample.ent1 "second try"))
         Sample.renamed_once
  = (Sample.renamed_once,
     Some (ReplyBoom 409 "Conflict, bad revision number" (Some "2-c5"))).
Proof.
  apply (putModelHandler_stale_revision Sample.env6
           (Sample.update_req "w" "1-c2" "w" Sample.ent1 "second try")
           Sample.renamed_once (updated Sample.env5 Sample.req5 Sample.doc_x)).
  - reflexivity.
  - simpl. discriminate.
Defined.

(** C3, as stated, fails: the update that renames [z] to [x] while another
    document named [x] comes first in the listing is accepted, but the
    reply is the view of that other document, not of the one written. *)
Lemma putModelHandler_rename_onto_taken_name :
  wf_store Sample.three
  ∧ first_named (params_name Sample.req4) Sample.three = Some Sample.doc_z
  ∧ p_rev (payload Sample.req4)
    = Some (Pouch.rev_string (Pouch.s_rev Sample.doc_z))
  ∧ ¬ update_returns_written Sample.env4 Sample.req4 Sample.three
        Sample.doc_z.
Proof.
  split_and!; [compute_done|reflexivity|reflexivity|].
  intros (s' & new & body & Hrun & Hlook & _ & _ & _ & Hbody).
  destruct sample_collections as (_ & _ & _ & H4 & _).
  rewrite H4 in Hrun. injection Hrun as <- <-.
  injection Hlook as <-.
  apply (f_equal (λ m : Object, m !! "entities")) in Hbody.
  vm_compute in Hbody. discriminate Hbody.
Qed.

(** C3 (amended): when no other document of the collection carries the
    name the request supplies, an update that supplies the revision of the
    document it resolves is answered with a 200; the document stored under
    the same [_id] then has the supplied entities and name and a revision
    other than the one supplied, and the reply is the view of that stored
    document, fetched again after the write. *)
Theorem putModelHandler_fresh_revision
    (env : Env) (request : Request) (s : Pouch.Store) (d : Pouch.Stored) :
  wf_store s →
  first_named (params_name request) s = Some d →
  p_rev (payload request) = Some (Pouch.rev_string (Pouch.s_rev d)) →
  Forall (λ x, Pouch.s_id x ≠ Pouch.s_id d →
               name (Pouch.s_data x) ≠ p_name (payload request)) s →
  update_returns_written env request s d.
Proof.
  intros Hwf Hd Hrev Hothers.
  pose proof (first_named_lookup_id _ _ _ Hwf Hd) as Hid.
  exists (Pouch.replace_doc (updated env request d) s),
         (updated env request d),
         (model_view request (Pouch.render (updated env request d))).
  split_and!; try reflexivity.
  - rewrite putModelHandler_run by done. rewrite Hd.
    rewrite decide_True by done. simpl.
    pose proof (first_named_replace (updated env request d) s) as Hnew.
    simpl in Hnew. rewrite Hnew; [done|by eexists|done].
  - by apply (lookup_id_replace_eq (updated env request d)).
  - apply rev_string_next.
Qed.

(** The rename of [z] to the free name [w] in the sample collection. *)
Lemma putModelHandler_fresh_revision_witness :
  update_returns_written Sample.env4
    (Sample.update_req "z" "1-c3" "w" Sample.ent1 "z renamed to w")
    Sample.three Sample.doc_z.
Proof.
  apply (putModelHandler_fresh_revision Sample.env4
           (Sample.update_req "z" "1-c3" "w" Sample.ent1 "z renamed to w")
           Sample.three Sample.doc_z).
  - compute_done.
  - reflexivity.
  - reflexivity.
  - repeat constructor; simpl; intros _; discriminate.
Defined.

(** C4: a create answered with a 201 stores a document whose changelog is
    the one entry of the create request; after a run of [N] updates of that
    document, each answered with a 200, its changelog is the entries of the
    updates, the latest first, followed by the entry of the create: every
    update puts its one entry in front of what was there, and the length is
    [N + 1]. *)
Theorem changelog_growth
    (env : Env) (request : Request) (us : list (Env * Request))
    (s s1 s2 : Pouch.Store) (body : Object) :
  wf_store s →
  handle (postModelsHandler env request) s
  = (s1, Some (ReplyObject body 201)) →
  run_updates (uuid env) us s1 = Some s2 →
  ∃ d0 d,
    Pouch.lookup_id (uuid env) s1 = Some d0
    ∧ changelog (Pouch.s_data d0) = [entry_of env request]
    ∧ Pouch.lookup_id (uuid env) s2 = Some d
    ∧ changelog (Pouch.s_data d)
      = reverse ((λ u, entry_of u.1 u.2) <$> us) ++ [entry_of env request]
    ∧ length (changelog (Pouch.s_data d)) = length us + 1.
Proof.
  intros Hwf Hcreate Hrun.
  apply postModelsHandler_201 in Hcreate as (_ & Hfresh & -> & _).
  pose proof (lookup_id_insert_eq (created env request) s Hwf Hfresh) as Hid.
  simpl in Hid.
  destruct (run_updates_changelog (uuid env) us _ s2 _
              (insert_doc_wf (created env request) s Hfresh Hwf) Hid Hrun)
    as (d & Hd & Hlog).
  exists (created env request), d. split_and!; try done.
  rewrite Hlog. rewrite length_app, length_reverse, length_fmap. done.
Qed.

(** The create of [x] and the two updates of the sample. *)
Lemma changelog_growth_witness :
  ∃ d0 d,
    Pouch.lookup_id "1b" Sample.two = Some d0
    ∧ changelog (Pouch.s_data d0) = [entry_of Sample.env2 Sample.req2]
    ∧ Pouch.lookup_id "1b"
        (default [] (run_updates "1b" Sample.updates Sample.two)) = Some d
    ∧ changelog (Pouch.s_data d)
      = [entry_of Sample.env6 Sample.req6; entry_of Sample.env5 Sample.req5;
         entry_of Sample.env2 Sample.req2]
    ∧ length (changelog (Pouch.s_data d)) = 3.
Proof.
  apply (changelog_growth Sample.env2 Sample.req2 Sample.updates
           Sample.one Sample.two
           (default [] (run_updates "1b" Sample.updates Sample.two))
           (model_view Sample.req2 (Pouch.render Sample.doc_x))).
  - compute_done.
  - vm_compute. reflexivity.
  - vm_compute. reflexivity.
Defined.

(** C5: after a create request answered with a 201, [getModel] of the
    created name resolves with a document whose entities are those of the
    request and whose changelog is the one entry that carries the commit
    message of the request; [GET /models/{name}] answers 200 with the view
    of that document, whose [entities] member is the entities of the
    request. *)
Theorem create_then_get
    (env : Env) (request get_request : Request)
    (s s' : Pouch.Store) (body : Object) :
  handle (postModelsHandler env request) s
  = (s', Some (ReplyObject body 201)) →
  params_name get_request = p_name (payload request) →
  ∃ doc,
    getModel (p_name (payload request)) {| db := s'; replied := None |}
    = ({| db := s'; replied := None |}, Resolved doc)
    ∧ entities (data doc) = p_entities (payload request)
    ∧ changelog (data doc)
      = [ {| message := commitMessage (payload request);
             user := credentials_user_name request;
             timestamp := now env |} ]
    ∧ handle (getModelHandler get_request) s'
      = (s', Some (ReplyObject (model_view get_request doc) 200))
    ∧ model_view get_request doc !! "entities"
      = Some (VEntities (p_entities (payload request))).
Proof.
  intros Hrun Hname.
  apply postModelsHandler_201 in Hrun as (Hfree & _ & -> & _).
  pose proof (first_named_insert (created env request) s Hfree) as Hnew.
  simpl in Hnew.
  exists (Pouch.render (created env request)). split_and!.
  - rewrite getModel_run. simpl. by rewrite Hnew.
  - reflexivity.
  - reflexivity.
  - rewrite getModelHandler_run, Hname. by rewrite Hnew.
  - reflexivity.
Qed.

(** The create of [x] in the sample, then its get. *)
Lemma create_then_get_witness :
  ∃ doc,
    getModel "x" {| db := Sample.two; replied := None |}
    = ({| db := Sample.two; replied := None |}, Resolved doc)
    ∧ entities (data doc) = Sample.ent1
    ∧ changelog (data doc)
      = [ {| message := "x created"; user := "ben";
             timestamp := "2016-11-02T10:01:00.000Z" |} ]
    ∧ handle (getModelHandler (Sample.name_req "x")) Sample.two
      = (Sample.two,
         Some (ReplyObject (model_view (Sample.name_req "x") doc) 200))
    ∧ model_view (Sample.name_req "x") doc !! "entities"
      = Some (VEntities Sample.ent1).
Proof.
  apply (create_then_get Sample.env2 Sample.req2 (Sample.name_req "x")
           Sample.one Sample.two
           (model_view Sample.req2 (Pouch.render Sample.doc_x))).
  - vm_compute. reflexivity.
  - reflexivity.
Defined.

(** C6, as stated, fails: in a collection where two documents carry the
    name [x] (the one the sample requests build), [DELETE /models/x]
    answers 204 and the [GET /models/x] that follows answers 200, with the
    other document. *)
Lemma delete_of_twin_name_is_not_terminal :
  wf_store Sample.twins
  ∧ ¬ delete_is_terminal (Sample.name_req "x") Sample.twins.
Proof.
  split; [compute_done|].
  intros Hterminal.
  destruct (Hterminal [Sample.doc_y; Sample.doc_zx]) as [Hget _].
  - vm_compute. reflexivity.
  - vm_compute in Hget. discriminate Hget.
Qed.

(** C6 (amended): for a name no document of the collection carries,
    [GET /models/{name}] and [DELETE /models/{name}] both answer 404 and
    leave the collection as it is; and when exactly one document carries the
    name, a delete answered with a 204 is final: the get and the delete
    that follow answer 404 (not 409). *)
Theorem absent_name_not_found (request : Request) (s : Pouch.Store) :
  (named (params_name request) s = [] →
     handle (getModelHandler request) s
     = (s, Some (ReplyBoom 404 "Not Found" None))
     ∧ handle (deleteModelsHandler request) s
       = (s, Some (ReplyBoom 404 "Not Found" None)))
  ∧ (length (named (params_name request) s) = 1 →
     delete_is_terminal request s).
Proof.
  assert (∀ s0, named (params_name request) s0 = [] →
     handle (getModelHandler request) s0
     = (s0, Some (ReplyBoom 404 "Not Found" None))
     ∧ handle (deleteModelsHandler request) s0
       = (s0, Some (ReplyBoom 404 "Not Found" None))) as Habsent.
  { intros s0 Hnone.
    assert (first_named (params_name request) s0 = None) as Hfirst
      by (unfold first_named; by rewrite Hnone).
    split.
    - rewrite getModelHandler_run. by rewrite Hfirst.
    - by apply deleteModelsHandler_not_found. }
  split; [apply Habsent|].
  intros Hone s' Hdel.
  apply deleteModelsHandler_204 in Hdel as (d & Hd & ->).
  apply Habsent. rewrite named_remove_doc.
  unfold first_named in Hd.
  destruct (named (params_name request) s) as [|d' [|? ?]];
    simplify_eq/=.
  rewrite filter_cons_False by (intros Hne; by apply Hne).
  reflexivity.
Qed.

(** The name [q], which nobody carries, and the name [x], carried once:
    its delete leaves [y] alone in the collection, and [x] is then not
    found. *)
Lemma absent_name_not_found_witness :
  (handle (getModelHandler (Sample.name_req "q")) Sample.two
   = (Sample.two, Some (ReplyBoom 404 "Not Found" None))
   ∧ handle (deleteModelsHandler (Sample.name_req "q")) Sample.two
     = (Sample.two, Some (ReplyBoom 404 "Not Found" None)))
  ∧ handle (deleteModelsHandler (Sample.name_req "x")) Sample.two
    = (Sample.one, Some (ReplyEmpty 204))
  ∧ handle (getModelHandler (Sample.name_req "x")) Sample.one
    = (Sample.one, Some (ReplyBoom 404 "Not Found" None))
  ∧ handle (deleteModelsHandler (Sample.name_req "x")) Sample.one
    = (Sample.one, Some (ReplyBoom 404 "Not Found" None)).
Proof.
  split; [|split].
  - apply (proj1 (absent_name_not_found (Sample.name_req "q") Sample.two)).
    reflexivity.
  - vm_compute. reflexivity.
  - apply (proj2 (absent_name_not_found (Sample.name_req "x") Sample.two)).
    + reflexivity.
    + vm_compute. reflexivity.
Defined.

(** C7: when the source is stored and the new name is free, [cloneFrom]
    succeeds; the clone has, when it is made, the nodes, the links and the
    model of its source, and the name and the description given to
    [cloneFrom]; it is the document then found under the new name; and an
    edit of the nodes and of the links of the source afterwards changes the
    source and leaves the nodes and the links of the clone as they were. *)
Theorem clone_copies_and_isolates
    (sourceName newName newDescription commitMessage' actor now' : string)
    (r : Twiglets.Repository) (source : Twiglets.Twiglet)
    (nodes links : list Twiglets.GraphItem) :
  Twiglets.findByName sourceName r = Some source →
  Twiglets.allocated source r →
  Twiglets.findByName newName r = None →
  ∃ r' clone,
    Twiglets.cloneFrom sourceName newName newDescription commitMessage' actor
      now' r = (r', inr clone)
    ∧ Twiglets.nodes_of r' clone = Twiglets.nodes_of r source
    ∧ Twiglets.links_of r' clone = Twiglets.links_of r source
    ∧ Twiglets.t_model clone = Twiglets.t_model source
    ∧ Twiglets.t_name clone = newName
    ∧ Twiglets.t_description clone = newDescription
    ∧ Twiglets.findByName newName r' = Some clone
    ∧ Twiglets.nodes_of (Twiglets.set_nodes source nodes r') source = nodes
    ∧ Twiglets.links_of (Twiglets.set_links source links r') source = links
    ∧ Twiglets.nodes_of
        (Twiglets.set_links source links (Twiglets.set_nodes source nodes r'))
        clone
      = Twiglets.nodes_of r source
    ∧ Twiglets.links_of
        (Twiglets.set_links source links (Twiglets.set_nodes source nodes r'))
        clone
      = Twiglets.links_of r source.
Proof.
  intros Hsource [Hnodes Hlinks] Hfree.
  unfold Twiglets.cloneFrom. rewrite Hsource.
  unfold Twiglets.create. rewrite Hfree.
  set (l1 := fresh (dom (Twiglets.cells r))).
  set (c1 := <[l1 := Twiglets.nodes_of r source]> (Twiglets.cells r)).
  set (l2 := fresh (dom c1)).
  assert (l1 ∉ dom (Twiglets.cells r)) as Hl1 by apply is_fresh.
  assert (l2 ∉ dom c1) as Hl2 by apply is_fresh.
  assert (l2 ≠ l1) as Hl21.
  { intros Heq. apply Hl2. rewrite Heq. unfold c1. set_solver. }
  assert (l2 ∉ dom (Twiglets.cells r)) as Hl2'.
  { intros Hin. apply Hl2. unfold c1. set_solver. }
  apply elem_of_dom in Hnodes, Hlinks.
  assert (Twiglets.t_nodes source ≠ l1 ∧ Twiglets.t_nodes source ≠ l2
          ∧ Twiglets.t_links source ≠ l1 ∧ Twiglets.t_links source ≠ l2)
    as (Hn1 & Hn2 & Hk1 & Hk2) by (split_and!; congruence).
  eexists _, _. split; [reflexivity|].
  unfold Twiglets.nodes_of, Twiglets.links_of, Twiglets.read,
    Twiglets.set_links, Twiglets.set_nodes, c1. simpl.
  split_and!; try reflexivity.
  - rewrite lookup_insert_ne by done. by rewrite lookup_insert_eq.
  - by rewrite lookup_insert_eq.
  - unfold Twiglets.findByName in *. simpl. rewrite filter_app.
    apply head_None in Hfree. rewrite Hfree. simpl.
    by rewrite filter_cons_True, filter_nil by done.
  - by rewrite lookup_insert_eq.
  - by rewrite lookup_insert_eq.
  - rewrite !(lookup_insert_ne _ _ l1) by done. by rewrite lookup_insert_eq.
  - rewrite (lookup_insert_ne _ _ l2) by done.
    rewrite (lookup_insert_ne _ _ l2) by done. by rewrite lookup_insert_eq.
Qed.

(** The clone of the end-to-end tests, then an edit of its source. *)
Lemma clone_copies_and_isolates_witness :
  ∃ r' clone,
    Twiglets.cloneFrom "test-c44e6001-1abd-483f-a8ab-bf807da7e455" "clone"
      "This was cloned" "cloned from BaseTwiglet" "twigtest@corp.riglet.io"
      "2016-11-02T10:05:00.000Z" Twiglets.base_repository = (r', inr clone)
    ∧ Twiglets.nodes_of r' clone
      = Twiglets.nodes_of Twiglets.base_repository Twiglets.base
    ∧ Twiglets.links_of r' clone
      = Twiglets.links_of Twiglets.base_repository Twiglets.base
    ∧ Twiglets.t_model clone = Twiglets.t_model Twiglets.base
    ∧ Twiglets.t_name clone = "clone"
    ∧ Twiglets.t_description clone = "This was cloned"
    ∧ Twiglets.findByName "clone" r' = Some clone
    ∧ Twiglets.nodes_of
        (Twiglets.set_nodes Twiglets.base [ {[ "b" := "edited" ]} ] r')
        Twiglets.base
      = [ {[ "b" := "edited" ]} ]
    ∧ Twiglets.links_of (Twiglets.set_links Twiglets.base [] r') Twiglets.base
      = []
    ∧ Twiglets.nodes_of
        (Twiglets.set_links Twiglets.base []
           (Twiglets.set_nodes Twiglets.base [ {[ "b" := "edited" ]} ] r'))
        clone
      = Twiglets.nodes_of Twiglets.base_repository Twiglets.base
    ∧ Twiglets.links_of
        (Twiglets.set_links Twiglets.base []
           (Twiglets.set_nodes Twiglets.base [ {[ "b" := "edited" ]} ] r'))
        clone
      = Twiglets.links_of Twiglets.base_repository Twiglets.base.
Proof.
  apply (clone_copies_and_isolates
           "test-c44e6001-1abd-483f-a8ab-bf807da7e455" "clone"
           "This was cloned" "cloned from BaseTwiglet"
           "twigtest@corp.riglet.io" "2016-11-02T10:05:00.000Z"
           Twiglets.base_repository Twiglets.base
           [ {[ "b" := "edited" ]} ] []).
  - reflexivity.
  - split; eexists; reflexivity.
  - reflexivity.
Defined.

(** C8: the object that [POST /models], [GET /models/{name}] or
    [PUT /models/{name}] replies with is the view of a document of the
    collection as the request leaves it, the first one that carries its
    name: the [entities] member is the entities of that document, [_rev]
    its revision, [name] its name, [url] the url built for
    [/models/<name>] and [changelog_url] the url built for
    [/models/<name>/changelog]; the object has these five members and no
    other, and so no [commitMessage]. *)
Theorem document_view_members
    (env : Env) (request : Request) (s s' : Pouch.Store)
    (body : Object) (code : nat) :
  handle (postModelsHandler env request) s
  = (s', Some (ReplyObject body code))
  ∨ handle (getModelHandler request) s = (s', Some (ReplyObject body code))
  ∨ handle (putModelHandler env request) s
    = (s', Some (ReplyObject body code)) →
  ∃ d,
    d ∈ s'
    ∧ first_named (name (Pouch.s_data d)) s' = Some d
    ∧ body !! "entities" = Some (VEntities (entities (Pouch.s_data d)))
    ∧ body !! "_rev" = Some (VString (Pouch.rev_string (Pouch.s_rev d)))
    ∧ body !! "name" = Some (VString (name (Pouch.s_data d)))
    ∧ body !! "url"
      = Some (VString (buildUrl request
                         ("/models/" +:+ name (Pouch.s_data d))))
    ∧ body !! "changelog_url"
      = Some (VString (buildUrl request
                         ("/models/" +:+ name (Pouch.s_data d)
                          +:+ "/changelog")))
    ∧ dom body = view_keys
    ∧ body !! "commitMessage" = None.
Proof.
  intros Hrun.
  assert (∃ n d, first_named n s' = Some d
                 ∧ body = model_view request (Pouch.render d))
    as (n & d & Hd & ->).
  { destruct Hrun as [Hrun|[Hrun|Hrun]].
    - apply postModelsHandler_object_found in Hrun as (d & ? & ?); eauto.
    - apply getModelHandler_object_found in Hrun as (d & ? & ?); eauto.
    - apply putModelHandler_object_found in Hrun as (d & ? & ?); eauto. }
  exists d. pose proof (first_named_Some _ _ _ Hd) as [Hin Hname].
  split_and!;
    first [done|by rewrite Hname|apply model_view_dom|reflexivity].
Qed.

(** The reply to the rename of the sample: the view of [x], stored under
    [1b] at [1-c2]. *)
Lemma document_view_members_witness :
  ∃ d,
    d ∈ Sample.twins
    ∧ first_named (name (Pouch.s_data d)) Sample.twins = Some d
    ∧ model_view Sample.req4 (Pouch.render Sample.doc_x) !! "entities"
      = Some (VEntities (entities (Pouch.s_data d)))
    ∧ model_view Sample.req4 (Pouch.render Sample.doc_x) !! "_rev"
      = Some (VString (Pouch.rev_string (Pouch.s_rev d)))
    ∧ model_view Sample.req4 (Pouch.render Sample.doc_x) !! "name"
      = Some (VString (name (Pouch.s_data d)))
    ∧ model_view Sample.req4 (Pouch.render Sample.doc_x) !! "url"
      = Some (VString (buildUrl Sample.req4
                         ("/models/" +:+ name (Pouch.s_data d))))
    ∧ model_view Sample.req4 (Pouch.render Sample.doc_x) !! "changelog_url"
      = Some (VString (buildUrl Sample.req4
                         ("/models/" +:+ name (Pouch.s_data d)
                          +:+ "/changelog")))
    ∧ dom (model_view Sample.req4 (Pouch.render Sample.doc_x)) = view_keys
    ∧ model_view Sample.req4 (Pouch.render Sample.doc_x) !! "commitMessage"
      = None.
Proof.
  apply (document_view_members Sample.env4 Sample.req4 Sample.three
           Sample.twins _ 200).
  right. right. vm_compute. reflexivity.
Defined.

(** C9: after an update answered with a 200, the document that was written
    (it carries the name and the entities of the request, and its changelog
    is the old one with the entry of the request in front) is stored under
    the [_id] of the document the request resolved, whether or not the name
    changed, and the [_id]s of the collection are the same as before, in
    the same order. *)
Theorem putModelHandler_keeps_id
    (env : Env) (request : Request) (s s' : Pouch.Store) (body : Object) :
  handle (putModelHandler env request) s
  = (s', Some (ReplyObject body 200)) →
  ∃ d new,
    first_named (params_name request) s = Some d
    ∧ Pouch.lookup_id (Pouch.s_id d) s' = Some new
    ∧ Pouch.s_id new = Pouch.s_id d
    ∧ name (Pouch.s_data new) = p_name (payload request)
    ∧ entities (Pouch.s_data new) = p_entities (payload request)
    ∧ changelog (Pouch.s_data new)
      = entry_of env request :: changelog (Pouch.s_data d)
    ∧ Pouch.s_id <$> s' = Pouch.s_id <$> s.
Proof.
  intros Hrun.
  apply putModelHandler_200 in Hrun as (d & found & Hd & _ & Hid & -> & _).
  exists d, (updated env request d). split_and!; try done.
  - by apply (lookup_id_replace_eq (updated env request d)).
  - apply replace_doc_ids.
Qed.

(** The rename of the sample keeps [z] under its [_id]. *)
Lemma putModelHandler_keeps_id_witness :
  ∃ d new,
    first_named "z" Sample.three = Some d
    ∧ Pouch.lookup_id (Pouch.s_id d) Sample.twins = Some new
    ∧ Pouch.s_id new = Pouch.s_id d
    ∧ name (Pouch.s_data new) = "x"
    ∧ entities (Pouch.s_data new) = Sample.ent2
    ∧ changelog (Pouch.s_data new)
      = entry_of Sample.env4 Sample.req4 :: changelog (Pouch.s_data d)
    ∧ Pouch.s_id <$> Sample.twins = Pouch.s_id <$> Sample.three.
Proof.
  apply (putModelHandler_keeps_id Sample.env4 Sample.req4 Sample.three
           Sample.twins (model_view Sample.req4 (Pouch.render Sample.doc_x))).
  vm_compute. reflexivity.
Defined.

(** C10: in a collection where several documents carry the same name,
    [getModel] resolves, with the first of them in listing order: whatever
    follows the first document named [n] (other documents named [n]
    included) has no part in the result, and the collection is left as it
    was. *)
Theorem getModel_first_of_duplicates
    (n : string) (pre post : Pouch.Store) (d d' : Pouch.Stored)
    (r : option Reply) :
  Forall (λ x, name (Pouch.s_data x) ≠ n) pre →
  name (Pouch.s_data d) = n →
  d' ∈ post → name (Pouch.s_data d') = n →
  getModel n {| db := pre ++ d :: post; replied := r |}
  = ({| db := pre ++ d :: post; replied := r |}, Resolved (Pouch.render d)).
Proof.
  intros Hpre Hd _ _. rewrite getModel_run. simpl.
  by rewrite (first_named_app n pre post d Hpre Hd).
Qed.

(** Among the twins of the sample, [getModel] resolves with the first. *)
Lemma getModel_first_of_duplicates_witness :
  getModel "x" {| db := Sample.twins; replied := None |}
  = ({| db := Sample.twins; replied := None |},
     Resolved (Pouch.render Sample.doc_x)).
Proof.
  apply (getModel_first_of_duplicates "x" [Sample.doc_y] [Sample.doc_zx]
           Sample.doc_x Sample.doc_zx None).
  - constructor; [discriminate|constructor].
  - reflexivity.
  - constructor.
  - reflexivity.
Defined.

(* ===================================================================== *)
(** ** Further properties of the handlers *)
(* ===================================================================== *)

Section Listing.

Implicit Types (request : Request) (s : Pouch.Store).

(** Pushing one element per row onto an array is a map over the rows. *)
Lemma foldl_push {A B} (f : A → B) (acc : list B) (l : list A) :
  foldl (λ array row, array ++ [f row]) acc l = acc ++ (f <$> l).
Proof.
  revert acc. induction l as [|x l IH]; intros acc; simpl.
  - by rewrite app_nil_r.
  - by rewrite IH, <-app_assoc.
Qed.

Lemma getModelsHandler_run request s :
  handle (getModelsHandler request) s
  = (s, Some (ReplyArray (summary request <$> s) 200)).
Proof.
  unfold handle, getModelsHandler. unfold_async. unfold allDocs. simpl.
  rewrite (foldl_push
             (λ row : Doc,
                (<[ "name" := VString (name (data row)) ]>
                 (<[ "url" := VString (buildUrl request
                        ("/models/" +:+ name (data row))) ]> ∅)) : Object)).
  simpl. by rewrite <-list_fmap_compose.
Qed.

End Listing.

(** X1: [GET /models] always answers 200 with one [{ name, url }] object per
    stored document, in listing order (so as many as there are documents,
    none for an empty collection), and leaves the collection as it is. *)
Theorem getModelsHandler_lists_every_document
    (request : Request) (s : Pouch.Store) :
  ∃ items,
    handle (getModelsHandler request) s = (s, Some (ReplyArray items 200))
    ∧ length items = length s
    ∧ ∀ i d, s !! i = Some d →
        ∃ item, items !! i = Some item
          ∧ item !! "name" = Some (VString (name (Pouch.s_data d)))
          ∧ item !! "url"
            = Some (VString (buildUrl request
                               ("/models/" +:+ name (Pouch.s_data d))))
          ∧ dom item = {[ "name"; "url" ]}.
Proof.
  exists (summary request <$> s). split_and!.
  - apply getModelsHandler_run.
  - by rewrite length_fmap.
  - intros i d Hd. exists (summary request d). split_and!.
    + by rewrite list_lookup_fmap, Hd.
    + reflexivity.
    + reflexivity.
    + unfold summary. rewrite !dom_insert_L, dom_empty_L. set_solver.
Qed.

(** The listing of the sample collection [twins]: both documents named [x]
    are listed. *)
Lemma getModelsHandler_lists_twins :
  handle (getModelsHandler (Sample.name_req "")) Sample.twins
  = (Sample.twins,
     Some (ReplyArray
             [ summary (Sample.name_req "") Sample.doc_y;
               summary (Sample.name_req "") Sample.doc_x;
               summary (Sample.name_req "") Sample.doc_zx ] 200)).
Proof. apply getModelsHandler_run. Qed.

(** X2: [getModel] never changes the world, and it is exact: when it
    resolves, the document carries the name asked for and is one of the
    listed documents; when it rejects, the error is the 404 [Not Found] and
    no document of the collection carries the name. *)
Theorem getModel_exact (n : string) (w : World) :
  ∃ outcome,
    getModel n w = (w, outcome)
    ∧ match outcome with
      | Resolved doc =>
          name (data doc) = n ∧ doc ∈ Pouch.render <$> db w
      | Rejected e =>
          e = NotFound
          ∧ Forall (λ d, name (Pouch.s_data d) ≠ n) (db w)
      end.
Proof.
  rewrite getModel_run.
  destruct (first_named n (db w)) as [d|] eqn:Hd; eexists; (split; [done|]).
  - apply first_named_Some in Hd as [Hin Hname]. split; [done|].
    by apply list_elem_of_fmap_2.
  - split; [done|]. by apply first_named_None.
Qed.

(** X3: the names [GET /models] lists are exactly the names
    [GET /models/{name}] answers with a 200; for every other name it answers
    404. *)
Theorem listed_iff_found
    (list_request request : Request) (s : Pouch.Store) (items : list Object) :
  handle (getModelsHandler list_request) s
  = (s, Some (ReplyArray items 200)) →
  ((∃ item, item ∈ items
            ∧ item !! "name" = Some (VString (params_name request)))
   ↔ ∃ body, handle (getModelHandler request) s
             = (s, Some (ReplyObject body 200)))
  ∧ ((¬ ∃ item, item ∈ items
                ∧ item !! "name" = Some (VString (params_name request)))
     ↔ handle (getModelHandler request) s
       = (s, Some (ReplyBoom 404 "Not Found" None))).
Proof.
  rewrite getModelsHandler_run. intros [= <-].
  rewrite getModelHandler_run.
  assert ((∃ item, item ∈ summary list_request <$> s
             ∧ item !! "name" = Some (VString (params_name request)))
          ↔ is_Some (first_named (params_name request) s)) as Hiff.
  { split.
    - intros (item & Hin & Hname).
      apply list_elem_of_fmap in Hin as (d & -> & Hd).
      injection Hname as Hname.
      destruct (first_named (params_name request) s) eqn:Hnone; [done|].
      apply first_named_None in Hnone. rewrite Forall_forall in Hnone.
      by destruct (Hnone d Hd).
    - intros [d Hd]. apply first_named_Some in Hd as [Hin Hname].
      exists (summary list_request d). split.
      + by apply list_elem_of_fmap_2.
      + unfold summary. rewrite lookup_insert_eq. by rewrite Hname. }
  rewrite Hiff.
  destruct (first_named (params_name request) s) as [d|]; split; split.
  - intros _. by eexists.
  - intros _. by eexists.
  - intros Hno. destruct Hno. by eexists.
  - intros [=].
  - by intros [? ?].
  - by intros [? [=]].
  - done.
  - intros _ [? ?]. done.
Qed.

(** The listing of [two] names [x] and not [q]. *)
Lemma listed_iff_found_witness :
  ((∃ item, item ∈ summary (Sample.name_req "") <$> Sample.two
            ∧ item !! "name" = Some (VString "x"))
   ↔ ∃ body, handle (getModelHandler (Sample.name_req "x")) Sample.two
             = (Sample.two, Some (ReplyObject body 200)))
  ∧ ((¬ ∃ item, item ∈ summary (Sample.name_req "") <$> Sample.two
                ∧ item !! "name" = Some (VString "x"))
     ↔ handle (getModelHandler (Sample.name_req "x")) Sample.two
       = (Sample.two, Some (ReplyBoom 404 "Not Found" None))).
Proof.
  apply (listed_iff_found (Sample.name_req "") (Sample.name_req "x")
           Sample.two (summary (Sample.name_req "") <$> Sample.two)).
  vm_compute. reflexivity.
Defined.

Section Writes.

Implicit Types (env : Env) (request : Request) (s : Pouch.Store)
  (d : Pouch.Stored).

Lemma insert_doc_sublist d s : s `sublist_of` Pouch.insert_doc d s.
Proof.
  induction s as [|x s IH]; simpl.
  - apply sublist_nil_l.
  - case_match; [by apply sublist_cons|by apply sublist_skip].
Qed.

Lemma remove_doc_fresh (i : string) s :
  i ∉ Pouch.s_id <$> s → Pouch.remove_doc i s = s.
Proof.
  unfold Pouch.remove_doc. induction s as [|x s IH]; [done|].
  rewrite fmap_cons, not_elem_of_cons. intros [Hx Hs].
  rewrite filter_cons_True by done. by rewrite IH.
Qed.

Lemma remove_insert_doc d s :
  Pouch.lookup_id (Pouch.s_id d) s = None →
  Pouch.remove_doc (Pouch.s_id d) (Pouch.insert_doc d s) = s.
Proof.
  rewrite lookup_id_None. unfold Pouch.remove_doc.
  induction s as [|x s IH]; simpl.
  - intros _. by rewrite filter_cons_False, filter_nil by (intros Hne; by apply Hne).
  - rewrite not_elem_of_cons. intros [Hx Hs].
    case_match.
    + rewrite filter_cons_False by (intros Hne; by apply Hne).
      rewrite filter_cons_True by done.
      f_equal. by apply (remove_doc_fresh (Pouch.s_id d) s).
    + rewrite filter_cons_True by done. by rewrite IH.
Qed.

Lemma remove_doc_middle (pre post : Pouch.Store) d :
  wf_store (pre ++ d :: post) →
  Pouch.remove_doc (Pouch.s_id d) (pre ++ d :: post) = pre ++ post.
Proof.
  unfold wf_store. rewrite fmap_app, fmap_cons.
  intros Hnodup. apply NoDup_app in Hnodup as (Hpre & Hdisj & Hrest).
  apply NoDup_cons in Hrest as [Hd Hpost].
  unfold Pouch.remove_doc. rewrite filter_app, filter_cons_False
    by (intros Hne; by apply Hne).
  fold (Pouch.remove_doc (Pouch.s_id d) pre).
  fold (Pouch.remove_doc (Pouch.s_id d) post).
  rewrite !remove_doc_fresh; [done|done|].
  intros Hin. apply (Hdisj _ Hin). left.
Qed.

(** [putModelHandler] on any collection, well-formed or not. *)
Lemma putModelHandler_cases env request s :
  (∃ d body,
     first_named (params_name request) s = Some d
     ∧ handle (putModelHandler env request) s
       = (Pouch.replace_doc (updated env request d) s,
          Some (ReplyObject body 200)))
  ∨ (∃ code msg rev,
       handle (putModelHandler env request) s
       = (s, Some (ReplyBoom code msg rev))
       ∧ (code = 404 ∨ code = 409)).
Proof.
  unfold handle, putModelHandler. unfold_async.
  rewrite getModel_run. simpl.
  destruct (first_named (params_name request) s) as [d|] eqn:Hd; simpl;
    [|right; by eauto 10].
  case_decide as Hrev; simpl; [|right; by eauto 10].
  destruct (Pouch.lookup_id (Pouch.s_id d) s) as [old|] eqn:Hold; simpl;
    [|right; by eauto 10].
  case_decide as Hold_rev; simpl; [|right; by eauto 10].
  apply rev_string_inj in Hold_rev. rewrite Hold_rev.
  fold (entry_of env request). fold (updated env request d).
  rewrite getModel_run. simpl.
  destruct (first_named_replace_is_Some (updated env request d) s)
    as [found Hfound]; [by eexists|].
  simpl in Hfound. rewrite Hfound. simpl. left. eauto.
Qed.

(** [deleteModelsHandler] on any collection, well-formed or not. *)
Lemma deleteModelsHandler_cases request s :
  (∃ d, first_named (params_name request) s = Some d
        ∧ handle (deleteModelsHandler request) s
          = (Pouch.remove_doc (Pouch.s_id d) s, Some (ReplyEmpty 204)))
  ∨ (∃ code msg,
       handle (deleteModelsHandler request) s
       = (s, Some (ReplyBoom code msg None))
       ∧ (code = 404 ∨ code = 409)).
Proof.
  unfold handle, deleteModelsHandler. unfold_async.
  rewrite getModel_run. simpl.
  destruct (first_named (params_name request) s) as [d|] eqn:Hd; simpl;
    [|right; by eauto 10].
  destruct (Pouch.lookup_id (Pouch.s_id d) s) as [old|]; simpl;
    [|right; by eauto 10].
  case_decide; simpl; [|right; by eauto 10].
  left. by exists d.
Qed.

End Writes.

(** X4: a create request for a name no document carries, when the
    identifier drawn for it is not taken, is answered with a 201; the
    collection then holds the documents it held and the new one; and the
    reply shows the name and the entities of the request, the first
    revision [1-<digest>], and the two urls built from the name. *)
Theorem postModelsHandler_creates
    (env : Env) (request : Request) (s : Pouch.Store) :
  first_named (p_name (payload request)) s = None →
  Pouch.lookup_id (uuid env) s = None →
  ∃ s' body,
    handle (postModelsHandler env request) s
    = (s', Some (ReplyObject body 201))
    ∧ s' ≡ₚ created env request :: s
    ∧ length s' = S (length s)
    ∧ body !! "name" = Some (VString (p_name (payload request)))
    ∧ body !! "entities" = Some (VEntities (p_entities (payload request)))
    ∧ body !! "_rev" = Some (VString ("1-" +:+ rev_digest env))
    ∧ body !! "url"
      = Some (VString (buildUrl request
                         ("/models/" +:+ p_name (payload request))))
    ∧ body !! "changelog_url"
      = Some (VString (buildUrl request
                         ("/models/" +:+ p_name (payload request)
                          +:+ "/changelog"))).
Proof.
  intros Hfree Hfresh. rewrite postModelsHandler_run, Hfree, Hfresh.
  eexists _, _. split; [reflexivity|].
  split_and!; try reflexivity.
  - apply insert_doc_perm.
  - by rewrite insert_doc_perm.
Qed.

(** The create of [z] in the sample collection [two]. *)
Lemma postModelsHandler_creates_witness :
  ∃ s' body,
    handle (postModelsHandler Sample.env3 Sample.req3) Sample.two
    = (s', Some (ReplyObject body 201))
    ∧ s' ≡ₚ created Sample.env3 Sample.req3 :: Sample.two
    ∧ length s' = 3
    ∧ body !! "name" = Some (VString "z")
    ∧ body !! "entities" = Some (VEntities Sample.ent2)
    ∧ body !! "_rev" = Some (VString "1-c3")
    ∧ body !! "url" = Some (VString "http://localhost:3000/models/z")
    ∧ body !! "changelog_url"
      = Some (VString "http://localhost:3000/models/z/changelog").
Proof.
  apply (postModelsHandler_creates Sample.env3 Sample.req3 Sample.two).
  - reflexivity.
  - reflexivity.
Defined.

(** X5: whatever a create request is answered with, the documents the
    collection held are still there afterwards, unchanged and in the same
    order: [postModelsHandler] never overwrites or removes a document. *)
Theorem postModelsHandler_keeps_documents
    (env : Env) (request : Request) (s : Pouch.Store) :
  s `sublist_of` (handle (postModelsHandler env request) s).1.
Proof.
  rewrite postModelsHandler_run.
  destruct (first_named (p_name (payload request)) s); [done|].
  destruct (Pouch.lookup_id (uuid env) s); [done|].
  apply insert_doc_sublist.
Qed.

(** X6: a create request for a name some document carries writes nothing
    and calls [reply] not at all, whatever the collection, the payload and
    the identifier drawn. *)
Theorem postModelsHandler_name_taken_writes_nothing
    (env : Env) (request : Request) (s : Pouch.Store) (d : Pouch.Stored) :
  first_named (p_name (payload request)) s = Some d →
  handle (postModelsHandler env request) s = (s, None).
Proof. intros Hd. by rewrite postModelsHandler_run, Hd. Qed.

(** A second create of [y] in the sample collection [twins]. *)
Lemma postModelsHandler_name_taken_writes_nothing_witness :
  handle (postModelsHandler Sample.env4 Sample.req1) Sample.twins
  = (Sample.twins, None).
Proof.
  apply (postModelsHandler_name_taken_writes_nothing Sample.env4 Sample.req1 Sample.twins
           Sample.doc_y).
  reflexivity.
Defined.

(** X7: an update addressed to a name no document carries is answered with
    the 404 [Not Found], without a [_rev] in the reply, and nothing is
    written. *)
Theorem putModelHandler_not_found
    (env : Env) (request : Request) (s : Pouch.Store) :
  named (params_name request) s = [] →
  handle (putModelHandler env request) s
  = (s, Some (ReplyBoom 404 "Not Found" None)).
Proof.
  intros Hnone. unfold handle, putModelHandler. unfold_async.
  rewrite getModel_run. simpl. unfold first_named. by rewrite Hnone.
Qed.

(** An update addressed to [z] after [z] was renamed. *)
Lemma putModelHandler_not_found_witness :
  handle (putModelHandler Sample.env5
            (Sample.update_req "z" "2-c4" "z" Sample.ent1 "too late"))
         Sample.twins
  = (Sample.twins, Some (ReplyBoom 404 "Not Found" None)).
Proof.
  apply (putModelHandler_not_found Sample.env5
           (Sample.update_req "z" "2-c4" "z" Sample.ent1 "too late")
           Sample.twins).
  reflexivity.
Defined.

(** X8: the list, get, update and delete handlers answer every request:
    [reply] is called, whatever the collection and the request. *)
Theorem handlers_always_answer
    (env : Env) (request : Request) (s : Pouch.Store) :
  is_Some (handle (getModelsHandler request) s).2
  ∧ is_Some (handle (getModelHandler request) s).2
  ∧ is_Some (handle (putModelHandler env request) s).2
  ∧ is_Some (handle (deleteModelsHandler request) s).2.
Proof.
  split_and!.
  - by rewrite getModelsHandler_run.
  - rewrite getModelHandler_run.
    by destruct (first_named (params_name request) s).
  - destruct (putModelHandler_cases env request s)
      as [(d & body & _ & ->)|(code & msg & rev & -> & _)]; done.
  - destruct (deleteModelsHandler_cases request s)
      as [(d & _ & ->)|(code & msg & -> & _)]; done.
Qed.

(** X9: an update or a delete that is answered with an error wrote
    nothing: the collection is as it was, and the error is a 404 or a 409. *)
Theorem failed_write_changes_nothing
    (env : Env) (request : Request) (s s' : Pouch.Store)
    (code : nat) (msg : string) (rev : option string) :
  handle (putModelHandler env request) s = (s', Some (ReplyBoom code msg rev))
  ∨ handle (deleteModelsHandler request) s
    = (s', Some (ReplyBoom code msg rev)) →
  s' = s ∧ (code = 404 ∨ code = 409).
Proof.
  intros [Hput|Hdel].
  - destruct (putModelHandler_cases env request s)
      as [(d & body & _ & Hrun)|(code' & msg' & rev' & Hrun & Hcode)];
      rewrite Hrun in Hput; [done|].
    by injection Hput as <- <- _ _.
  - destruct (deleteModelsHandler_cases request s)
      as [(d & _ & Hrun)|(code' & msg' & Hrun & Hcode)];
      rewrite Hrun in Hdel; [done|].
    by injection Hdel as <- <- _ _.
Qed.

(** The stale update of the sample leaves [renamed_once] as it is. *)
Lemma failed_write_changes_nothing_witness :
  Sample.renamed_once = Sample.renamed_once ∧ (409 = 404 ∨ 409 = 409).
Proof.
  apply (failed_write_changes_nothing Sample.env6
           (Sample.update_req "w" "1-c2" "w" Sample.ent1 "second try")
           Sample.renamed_once Sample.renamed_once 409
           "Conflict, bad revision number" (Some "2-c5")).
  left. vm_compute. reflexivity.
Defined.

(** X10: an update answered with a 200 wrote over one document only: the
    collection has as many documents as before, and under every [_id] other
    than that of the document the request resolved, the stored document is
    the one that was there. *)
Theorem putModelHandler_frame
    (env : Env) (request : Request) (s s' : Pouch.Store) (body : Object) :
  handle (putModelHandler env request) s
  = (s', Some (ReplyObject body 200)) →
  ∃ d,
    first_named (params_name request) s = Some d
    ∧ length s' = length s
    ∧ ∀ i, i ≠ Pouch.s_id d → Pouch.lookup_id i s' = Pouch.lookup_id i s.
Proof.
  intros Hrun.
  apply putModelHandler_200 in Hrun as (d & found & Hd & _ & _ & -> & _).
  exists d. split_and!; [done| |].
  - unfold Pouch.replace_doc. by rewrite length_fmap.
  - intros i Hi. by apply (lookup_id_replace_ne i (updated env request d)).
Qed.

(** The rename of [z] in the sample leaves [y] and [x] as they were. *)
Lemma putModelHandler_frame_witness :
  ∃ d,
    first_named "z" Sample.three = Some d
    ∧ length Sample.twins = length Sample.three
    ∧ ∀ i, i ≠ Pouch.s_id d →
        Pouch.lookup_id i Sample.twins = Pouch.lookup_id i Sample.three.
Proof.
  apply (putModelHandler_frame Sample.env4 Sample.req4 Sample.three
           Sample.twins (model_view Sample.req4 (Pouch.render Sample.doc_x))).
  vm_compute. reflexivity.
Defined.

(** X11: the revision an accepted update was made with is used up.  When
    an update that supplies the revision of the document is accepted (no
    other document carrying the name it gives), a second update of that
    document that still supplies the old revision is answered with the 409
    [Conflict, bad revision number], which carries the revision the first
    update produced, and the collection stays as the first update left
    it. *)
Theorem second_update_with_old_revision
    (env env2 : Env) (request request2 : Request)
    (s : Pouch.Store) (d : Pouch.Stored) :
  wf_store s →
  first_named (params_name request) s = Some d →
  p_rev (payload request) = Some (Pouch.rev_string (Pouch.s_rev d)) →
  Forall (λ x, Pouch.s_id x ≠ Pouch.s_id d →
               name (Pouch.s_data x) ≠ p_name (payload request)) s →
  params_name request2 = p_name (payload request) →
  p_rev (payload request2) = p_rev (payload request) →
  ∃ s1 body,
    handle (putModelHandler env request) s
    = (s1, Some (ReplyObject body 200))
    ∧ handle (putModelHandler env2 request2) s1
      = (s1,
         Some (ReplyBoom 409 "Conflict, bad revision number"
                 (Some (Pouch.rev_string
                          (Pouch.s_rev (updated env request d)))))).
Proof.
  intros Hwf Hd Hrev Hothers Hname2 Hrev2.
  pose proof (first_named_lookup_id _ _ _ Hwf Hd) as Hid.
  pose proof (first_named_replace (updated env request d) s) as Hnew.
  simpl in Hnew. specialize (Hnew (ltac:(by eexists)) Hothers).
  eexists _, _. split.
  - rewrite putModelHandler_run by done. rewrite Hd.
    rewrite decide_True by done. simpl. by rewrite Hnew.
  - rewrite putModelHandler_run by by apply replace_doc_wf.
    rewrite Hname2, Hnew, Hrev2, Hrev.
    rewrite decide_False; [done|].
    intros [= Heq]. symmetry in Heq. by apply rev_string_next in Heq.
Qed.

(** The model [x] of the sample, renamed to [w] with [1-c2], then updated
    again with [1-c2]. *)
Lemma second_update_with_old_revision_witness :
  ∃ s1 body,
    handle (putModelHandler Sample.env5 Sample.req5) Sample.two
    = (s1, Some (ReplyObject body 200))
    ∧ handle (putModelHandler Sample.env6
                (Sample.update_req "w" "1-c2" "w" Sample.ent1 "second try"))
             s1
      = (s1,
         Some (ReplyBoom 409 "Conflict, bad revision number"
                 (Some (Pouch.rev_string
                          (Pouch.s_rev
                             (updated Sample.env5 Sample.req5
                                Sample.doc_x)))))).
Proof.
  apply (second_update_with_old_revision Sample.env5 Sample.env6 Sample.req5
           (Sample.update_req "w" "1-c2" "w" Sample.ent1 "second try")
           Sample.two Sample.doc_x).
  - compute_done.
  - reflexivity.
  - reflexivity.
  - repeat constructor; simpl; intros _; discriminate.
  - reflexivity.
  - reflexivity.
Defined.

(** X12: a create answered with a 201, followed by a delete of the created
    name, is answered with a 204 and gives back the collection as it was
    before the create, document for document. *)
Theorem create_then_delete
    (env : Env) (request delete_request : Request)
    (s s1 : Pouch.Store) (body : Object) :
  handle (postModelsHandler env request) s
  = (s1, Some (ReplyObject body 201)) →
  params_name delete_request = p_name (payload request) →
  handle (deleteModelsHandler delete_request) s1
  = (s, Some (ReplyEmpty 204)).
Proof.
  intros Hrun Hname.
  apply postModelsHandler_201 in Hrun as (Hfree & Hfresh & -> & _).
  pose proof (first_named_insert (created env request) s Hfree) as Hnew.
  simpl in Hnew.
  destruct (deleteModelsHandler_cases delete_request
              (Pouch.insert_doc (created env request) s))
    as [(d & Hd & ->)|(code & msg & Hrun & _)].
  - rewrite Hname, Hnew in Hd. injection Hd as <-.
    by rewrite (remove_insert_doc (created env request) s Hfresh).
  - exfalso. revert Hrun.
    unfold handle, deleteModelsHandler. unfold_async.
    rewrite getModel_run. simpl. rewrite Hname, Hnew. simpl.
    assert (Pouch.lookup_id (uuid env)
              (Pouch.insert_doc (created env request) s)
            = Some (created env request)) as ->.
    { clear Hnew Hfree. induction s as [|x s IH]; simpl.
      - by rewrite decide_True.
      - simpl in Hfresh. case_decide as Hx; [done|].
        case_match; simpl.
        + by rewrite decide_True.
        + rewrite decide_False by done. by apply IH. }
    simpl. by rewrite decide_True.
Qed.

(** The create of [z] in [two], then the delete of [z]. *)
Lemma create_then_delete_witness :
  handle (deleteModelsHandler (Sample.name_req "z")) Sample.three
  = (Sample.two, Some (ReplyEmpty 204)).
Proof.
  apply (create_then_delete Sample.env3 Sample.req3 (Sample.name_req "z")
           Sample.two Sample.three
           (model_view Sample.req3 (Pouch.render Sample.doc_z))).
  - vm_compute. reflexivity.
  - reflexivity.
Defined.

(** X13: a delete removes the first document that carries the name, and
    that document only: what came before it and what came after it in the
    listing stay, in order, later documents of the same name included. *)
Theorem deleteModelsHandler_removes_first
    (request : Request) (pre post : Pouch.Store) (d : Pouch.Stored) :
  wf_store (pre ++ d :: post) →
  Forall (λ x, name (Pouch.s_data x) ≠ params_name request) pre →
  name (Pouch.s_data d) = params_name request →
  handle (deleteModelsHandler request) (pre ++ d :: post)
  = (pre ++ post, Some (ReplyEmpty 204)).
Proof.
  intros Hwf Hpre Hd.
  rewrite deleteModelsHandler_run by done.
  rewrite (first_named_app _ pre post d Hpre Hd).
  by rewrite remove_doc_middle.
Qed.

(** The delete of [x] among the twins of the sample. *)
Lemma deleteModelsHandler_removes_first_witness :
  handle (deleteModelsHandler (Sample.name_req "x"))
         ([Sample.doc_y] ++ Sample.doc_x :: [Sample.doc_zx])
  = ([Sample.doc_y] ++ [Sample.doc_zx], Some (ReplyEmpty 204)).
Proof.
  apply (deleteModelsHandler_removes_first (Sample.name_req "x")
           [Sample.doc_y] [Sample.doc_zx] Sample.doc_x).
  - compute_done.
  - constructor; [discriminate|constructor].
  - reflexivity.
Defined.

(** X14: every handler keeps the listing in ascending [_id] order, and so
    keeps the [_id]s of the collection distinct. *)
Theorem handlers_keep_order
    (env : Env) (request : Request) (s : Pouch.Store) :
  in_order s →
  (in_order (handle (postModelsHandler env request) s).1
   ∧ wf_store (handle (postModelsHandler env request) s).1)
  ∧ (in_order (handle (getModelsHandler request) s).1
     ∧ in_order (handle (getModelHandler request) s).1)
  ∧ (in_order (handle (putModelHandler env request) s).1
     ∧ wf_store (handle (putModelHandler env request) s).1)
  ∧ (in_order (handle (deleteModelsHandler request) s).1
     ∧ wf_store (handle (deleteModelsHandler request) s).1).
Proof.
  intros Hs.
  destruct (handlers_in_order env request s Hs) as (Hpost & Hget & Hput & Hdel).
  split_and!; first [done|by apply in_order_wf].
Qed.

(** The sample collection [two] and the create of [z] in it. *)
Lemma handlers_keep_order_witness :
  (in_order (handle (postModelsHandler Sample.env3 Sample.req3) Sample.two).1
   ∧ wf_store
       (handle (postModelsHandler Sample.env3 Sample.req3) Sample.two).1)
  ∧ (in_order (handle (getModelsHandler Sample.req3) Sample.two).1
     ∧ in_order (handle (getModelHandler Sample.req3) Sample.two).1)
  ∧ (in_order (handle (putModelHandler Sample.env3 Sample.req3) Sample.two).1
     ∧ wf_store
         (handle (putModelHandler Sample.env3 Sample.req3) Sample.two).1)
  ∧ (in_order (handle (deleteModelsHandler Sample.req3) Sample.two).1
     ∧ wf_store (handle (deleteModelsHandler Sample.req3) Sample.two).1).
Proof.
  apply (handlers_keep_order Sample.env3 Sample.req3 Sample.two).
  unfold in_order. simpl.
  repeat (constructor; try reflexivity).
Defined.

Section Names.

Implicit Types (env : Env) (request : Request) (s : Pouch.Store)
  (d new : Pouch.Stored).

Lemma first_named_None_names (n : string) s :
  first_named n s = None → n ∉ (λ d, name (Pouch.s_data d)) <$> s.
Proof.
  rewrite first_named_None, Forall_forall. intros Hall Hin.
  apply list_elem_of_fmap in Hin as (d & -> & Hd). by apply (Hall d).
Qed.

Lemma replace_doc_absent new s :
  Pouch.s_id new ∉ Pouch.s_id <$> s → Pouch.replace_doc new s = s.
Proof.
  unfold Pouch.replace_doc. induction s as [|y s IH]; [done|].
  rewrite !fmap_cons, not_elem_of_cons. intros [Hy Hs].
  rewrite decide_False by congruence. by rewrite IH.
Qed.

Lemma replace_doc_unique_names new s :
  wf_store s → unique_names s →
  Forall (λ x, Pouch.s_id x ≠ Pouch.s_id new →
               name (Pouch.s_data x) ≠ name (Pouch.s_data new)) s →
  unique_names (Pouch.replace_doc new s).
Proof.
  unfold wf_store, unique_names, Pouch.replace_doc.
  induction s as [|x s IH]; [done|].
  rewrite !fmap_cons, !NoDup_cons, Forall_cons.
  intros [Hid Hids] [Hnm Hnms] [Hx Hothers].
  destruct (decide (Pouch.s_id x = Pouch.s_id new)) as [Heq|Hne].
  - fold (Pouch.replace_doc new s).
    rewrite (replace_doc_absent new s) by by rewrite <-Heq.
    split; [|done].
    intros Hin. apply list_elem_of_fmap in Hin as (y & Hname & Hy).
    rewrite Forall_forall in Hothers. apply (Hothers y Hy); [|done].
    intros Hyid. apply Hid. rewrite Heq, <-Hyid. by apply list_elem_of_fmap_2.
  - split; [|by apply IH].
    rewrite <-list_fmap_compose.
    intros Hin. apply list_elem_of_fmap in Hin as (y & Hname & Hy).
    simpl in Hname. case_decide.
    + by apply Hx.
    + apply Hnm. rewrite Hname.
      by apply (list_elem_of_fmap_2 (λ d, name (Pouch.s_data d))).
Qed.

(** An object reply of [putModelHandler] is a 200 and the view of the first
    document that carries the name of the payload. *)
Lemma putModelHandler_object_200 env request s s' body code :
  handle (putModelHandler env request) s
  = (s', Some (ReplyObject body code)) →
  code = 200
  ∧ ∃ found, first_named (p_name (payload request)) s' = Some found
             ∧ body = model_view request (Pouch.render found).
Proof.
  intros Hrun.
  assert (code = 200) as ->.
  { destruct (putModelHandler_cases env request s)
      as [(d & body' & _ & Hcase)|(c & m & r & Hcase & _)];
      rewrite Hcase in Hrun; by simplify_eq. }
  split; [done|].
  apply putModelHandler_200 in Hrun as (d & found & _ & _ & _ & _ & Hf & Hb).
  by exists found.
Qed.

End Names.

(** X15: a create and a delete keep the names of the collection distinct:
    if no two documents carry the same name before the request, none do
    after it. *)
Theorem create_delete_keep_names_unique
    (env : Env) (request : Request) (s : Pouch.Store) :
  unique_names s →
  unique_names (handle (postModelsHandler env request) s).1
  ∧ unique_names (handle (deleteModelsHandler request) s).1.
Proof.
  unfold unique_names. intros Hs. split.
  - rewrite postModelsHandler_run.
    destruct (first_named (p_name (payload request)) s) eqn:Hfree; [done|].
    destruct (Pouch.lookup_id (uuid env) s); [done|]. simpl.
    rewrite insert_doc_perm, fmap_cons. apply NoDup_cons. split; [|done].
    by apply first_named_None_names.
  - destruct (deleteModelsHandler_cases request s)
      as [(d & _ & ->)|(code & msg & -> & _)]; [|done]. simpl.
    eapply sublist_NoDup; [exact Hs|].
    apply fmap_sublist, sublist_filter.
Qed.

(** The sample collection [two]: a create of [z], a delete of [x]. *)
Lemma create_delete_keep_names_unique_witness :
  unique_names (handle (postModelsHandler Sample.env3 Sample.req3) Sample.two).1
  ∧ unique_names
      (handle (deleteModelsHandler (Sample.name_req "x")) Sample.two).1.
Proof.
  destruct (create_delete_keep_names_unique Sample.env3 Sample.req3
              Sample.two) as [Hpost _]; [compute_done|].
  destruct (create_delete_keep_names_unique Sample.env3
              (Sample.name_req "x") Sample.two) as [_ Hdel]; [compute_done|].
  exact (conj Hpost Hdel).
Defined.

(** X16: an update keeps the names of the collection distinct when no
    other document carries the name it gives (the name may be the one the
    document had); the handler itself does not look for such a
    document. *)
Theorem update_keeps_names_unique
    (env : Env) (request : Request) (s : Pouch.Store) (d : Pouch.Stored) :
  wf_store s → unique_names s →
  first_named (params_name request) s = Some d →
  Forall (λ x, Pouch.s_id x ≠ Pouch.s_id d →
               name (Pouch.s_data x) ≠ p_name (payload request)) s →
  unique_names (handle (putModelHandler env request) s).1.
Proof.
  intros Hwf Hnames Hd Hothers.
  rewrite putModelHandler_run by done. rewrite Hd.
  case_decide; [|done]. simpl.
  by apply (replace_doc_unique_names (updated env request d)).
Qed.

(** The rename of [x] to [w] in the sample collection [two]. *)
Lemma update_keeps_names_unique_witness :
  unique_names (handle (putModelHandler Sample.env5 Sample.req5) Sample.two).1.
Proof.
  apply (update_keeps_names_unique Sample.env5 Sample.req5 Sample.two
           Sample.doc_x).
  - compute_done.
  - compute_done.
  - reflexivity.
  - repeat constructor; simpl; intros _; discriminate.
Defined.

(** X17: the [name] member of a document view is the name that was asked
    for, and the [url] member is built from it: the name of the payload for
    a create (answered 201) and for an update (answered 200, also when the
    document shown is not the one written), the name of the path for a get
    (answered 200). *)
Theorem view_carries_requested_name
    (env : Env) (request : Request) (s s' : Pouch.Store)
    (body : Object) (code : nat) :
  (handle (postModelsHandler env request) s
   = (s', Some (ReplyObject body code)) →
   code = 201
   ∧ body !! "name" = Some (VString (p_name (payload request)))
   ∧ body !! "url"
     = Some (VString (buildUrl request
                        ("/models/" +:+ p_name (payload request)))))
  ∧ (handle (putModelHandler env request) s
     = (s', Some (ReplyObject body code)) →
     code = 200
     ∧ body !! "name" = Some (VString (p_name (payload request)))
     ∧ body !! "url"
       = Some (VString (buildUrl request
                          ("/models/" +:+ p_name (payload request)))))
  ∧ (handle (getModelHandler request) s
     = (s', Some (ReplyObject body code)) →
     code = 200
     ∧ body !! "name" = Some (VString (params_name request))
     ∧ body !! "url"
       = Some (VString (buildUrl request
                          ("/models/" +:+ params_name request)))).
Proof.
  split_and!.
  - rewrite postModelsHandler_run.
    destruct (first_named (p_name (payload request)) s); [done|].
    destruct (Pouch.lookup_id (uuid env) s); [done|].
    by intros [= <- <- <-].
  - intros Hrun.
    apply putModelHandler_object_200 in Hrun as (-> & found & Hf & ->).
    apply first_named_Some in Hf as [_ Hname].
    split; [done|]. unfold model_view. simpl.
    rewrite <-Hname. split; reflexivity.
  - rewrite getModelHandler_run.
    destruct (first_named (params_name request) s) as [d|] eqn:Hd; [|done].
    intros [= <- <- <-].
    apply first_named_Some in Hd as [_ Hname].
    split; [done|]. unfold model_view. simpl.
    rewrite <-Hname. split; reflexivity.
Qed.

(** The rename of the sample: the reply names [x], the name asked for. *)
Lemma view_carries_requested_name_witness :
  200 = 200
  ∧ model_view Sample.req4 (Pouch.render Sample.doc_x) !! "name"
    = Some (VString "x")
  ∧ model_view Sample.req4 (Pouch.render Sample.doc_x) !! "url"
    = Some (VString (Sample.host "/models/x")).
Proof.
  apply (proj1 (proj2 (view_carries_requested_name Sample.env4 Sample.req4
                         Sample.three Sample.twins
                         (model_view Sample.req4 (Pouch.render Sample.doc_x))
                         200))).
  vm_compute. reflexivity.
Defined.

(** X18: after a create answered with a 201, [GET /models] lists one more
    document than the collection held before, and among them the created
    name with its url. *)
Theorem created_is_listed
    (env : Env) (request list_request : Request)
    (s s1 : Pouch.Store) (body : Object) :
  handle (postModelsHandler env request) s
  = (s1, Some (ReplyObject body 201)) →
  ∃ items item,
    handle (getModelsHandler list_request) s1
    = (s1, Some (ReplyArray items 200))
    ∧ length items = S (length s)
    ∧ item ∈ items
    ∧ item !! "name" = Some (VString (p_name (payload request)))
    ∧ item !! "url"
      = Some (VString (buildUrl list_request
                         ("/models/" +:+ p_name (payload request)))).
Proof.
  intros Hrun.
  apply postModelsHandler_201 in Hrun as (_ & _ & -> & _).
  exists (summary list_request
            <$> Pouch.insert_doc (created env request) s),
         (summary list_request (created env request)).
  split_and!.
  - apply getModelsHandler_run.
  - by rewrite length_fmap, insert_doc_perm.
  - apply list_elem_of_fmap_2. rewrite insert_doc_perm. left.
  - reflexivity.
  - reflexivity.
Qed.

(** The create of [z] in [two], then the listing. *)
Lemma created_is_listed_witness :
  ∃ items item,
    handle (getModelsHandler (Sample.name_req "")) Sample.three
    = (Sample.three, Some (ReplyArray items 200))
    ∧ length items = 3
    ∧ item ∈ items
    ∧ item !! "name" = Some (VString "z")
    ∧ item !! "url" = Some (VString (Sample.host "/models/z")).
Proof.
  apply (created_is_listed Sample.env3 Sample.req3 (Sample.name_req "")
           Sample.two Sample.three
           (model_view Sample.req3 (Pouch.render Sample.doc_z))).
  vm_compute. reflexivity.
Defined.

(** An update that supplies the revision of the document it resolves is
    answered with a 200. *)
Lemma putModelHandler_accepts
    (env : Env) (request : Request) (s : Pouch.Store) (d : Pouch.Stored) :
  wf_store s →
  first_named (params_name request) s = Some d →
  p_rev (payload request) = Some (Pouch.rev_string (Pouch.s_rev d)) →
  ∃ body,
    handle (putModelHandler env request) s
    = (Pouch.replace_doc (updated env request d) s,
       Some (ReplyObject body 200)).
Proof.
  intros Hwf Hd Hrev.
  rewrite putModelHandler_run by done. rewrite Hd.
  rewrite decide_True by done. simpl.
  destruct (first_named_replace_is_Some (updated env request d) s)
    as [found Hfound].
  { simpl. rewrite (first_named_lookup_id _ _ _ Hwf Hd). by eexists. }
  simpl in Hfound. rewrite Hfound. by eexists.
Qed.

(** X19: the revision [GET /models/{name}] shows is the one
    [PUT /models/{name}] accepts: an update of the same name that supplies
    the [_rev] member of the get's reply is answered with a 200, whatever
    else its payload holds. *)
Theorem get_then_put
    (env : Env) (request put_request : Request) (s : Pouch.Store)
    (body : Object) (rev : string) :
  wf_store s →
  handle (getModelHandler request) s = (s, Some (ReplyObject body 200)) →
  body !! "_rev" = Some (VString rev) →
  params_name put_request = params_name request →
  p_rev (payload put_request) = Some rev →
  ∃ s' body',
    handle (putModelHandler env put_request) s
    = (s', Some (ReplyObject body' 200)).
Proof.
  intros Hwf Hget Hbody Hname Hrev. revert Hget.
  rewrite getModelHandler_run.
  destruct (first_named (params_name request) s) as [d|] eqn:Hd; [|done].
  intros [= <-]. injection Hbody as <-.
  rewrite <-Hname in Hd.
  destruct (putModelHandler_accepts env put_request s d Hwf Hd Hrev)
    as [body' Hrun].
  eauto.
Qed.

(** The get of [z] in the sample, then the rename of the sample. *)
Lemma get_then_put_witness :
  ∃ s' body',
    handle (putModelHandler Sample.env4 Sample.req4) Sample.three
    = (s', Some (ReplyObject body' 200)).
Proof.
  apply (get_then_put Sample.env4 (Sample.name_req "z") Sample.req4
           Sample.three
           (model_view (Sample.name_req "z") (Pouch.render Sample.doc_z))
           "1-c3").
  - compute_done.
  - vm_compute. reflexivity.
  - reflexivity.
  - reflexivity.
  - reflexivity.
Defined.

(** X20: the revision a 409 reply of an update carries is the one to retry
    with: the same update of the same name, now supplying that revision, is
    answered with a 200. *)
Theorem retry_with_carried_revision
    (env env2 : Env) (request retry : Request) (s s' : Pouch.Store)
    (msg rev : string) :
  wf_store s →
  handle (putModelHandler env request) s
  = (s', Some (ReplyBoom 409 msg (Some rev))) →
  params_name retry = params_name request →
  p_rev (payload retry) = Some rev →
  ∃ s2 body,
    handle (putModelHandler env2 retry) s = (s2, Some (ReplyObject body 200)).
Proof.
  intros Hwf Hrun Hname Hrev. revert Hrun.
  rewrite putModelHandler_run by done.
  destruct (first_named (params_name request) s) as [d|] eqn:Hd; [|done].
  case_decide.
  - simpl. by case_match.
  - intros [= <- <- <-]. rewrite <-Hname in Hd.
    destruct (putModelHandler_accepts env2 retry s d Hwf Hd Hrev)
      as [body Hretry].
    eauto.
Qed.

(** The stale update of the sample, retried with [2-c5]. *)
Lemma retry_with_carried_revision_witness :
  ∃ s2 body,
    handle (putModelHandler Sample.env6 Sample.req6) Sample.renamed_once
    = (s2, Some (ReplyObject body 200)).
Proof.
  apply (retry_with_carried_revision Sample.env6 Sample.env6
           (Sample.update_req "w" "1-c2" "w" Sample.ent1 "second try")
           Sample.req6 Sample.renamed_once Sample.renamed_once
           "Conflict, bad revision number" "2-c5").
  - compute_done.
  - vm_compute. reflexivity.
  - reflexivity.
  - reflexivity.
Defined.

(** X21: the revision a 201 reply of a create shows is the one an update
    of the created name is accepted with. *)
Theorem create_then_put
    (env env2 : Env) (request put_request : Request) (s s1 : Pouch.Store)
    (body : Object) (rev : string) :
  wf_store s →
  handle (postModelsHandler env request) s
  = (s1, Some (ReplyObject body 201)) →
  body !! "_rev" = Some (VString rev) →
  params_name put_request = p_name (payload request) →
  p_rev (payload put_request) = Some rev →
  ∃ s2 body',
    handle (putModelHandler env2 put_request) s1
    = (s2, Some (ReplyObject body' 200)).
Proof.
  intros Hwf Hrun Hbody Hname Hrev.
  apply postModelsHandler_201 in Hrun as (Hfree & Hfresh & -> & ->).
  injection Hbody as <-.
  pose proof (first_named_insert (created env request) s Hfree) as Hnew.
  simpl in Hnew. rewrite <-Hname in Hnew.
  destruct (putModelHandler_accepts env2 put_request _ _
              (insert_doc_wf (created env request) s Hfresh Hwf) Hnew Hrev)
    as [body' Hput].
  eauto.
Qed.

(** The create of [x] in the sample, then its rename to [w]. *)
Lemma create_then_put_witness :
  ∃ s2 body',
    handle (putModelHandler Sample.env5 Sample.req5) Sample.two
    = (s2, Some (ReplyObject body' 200)).
Proof.
  apply (create_then_put Sample.env2 Sample.env5 Sample.req2 Sample.req5
           Sample.one Sample.two
           (model_view Sample.req2 (Pouch.render Sample.doc_x)) "1-c2").
  - compute_done.
  - vm_compute. reflexivity.
  - reflexivity.
  - reflexivity.
  - reflexivity.
Defined.
